(** * news_rag_advanced: the retrieval pipeline of [rag_service.py] and the
      HTTP handlers of [app.py], embedded in Rocq.

    Python dictionaries are finite maps ([gmap string _]), JSON values are an
    inductive type, and the effects of the program (calls to the language
    model, to the vector store, [print], the question/answer log) are
    recorded in a trace threaded through a small state-and-exception monad.
    The language model, the vector store, [json.loads], the clock, the
    process environment, [traceback.format_exc] and the Unicode database of
    the interpreter are not part of the repository: they are the fields of a
    [World] the functions are parameterised by. *)

From Stdlib Require Import ZArith String Ascii List.
From stdpp Require Import base option list strings gmap pretty.

Set Warnings "-register-all".

Local Open Scope string_scope.
Local Open Scope list_scope.
Local Open Scope Z_scope.

(** ** Data *)

(** The values [json.loads] produces.  A JSON object is kept as the list of
    its items in insertion order, as a Python [dict] iterates them; keys are
    looked up from the front.  A [float] is kept as the 64 bits of the
    double. *)
Inductive json : Type :=
  | JNull
  | JBool (b : bool)
  | JInt (n : Z)
  | JFloat (bits : Z)
  | JStr (s : string)
  | JArr (items : list json)
  | JObj (items : list (string * json)).

(** The exception classes the program meets.  Each carries the text that
    [str(e)] gives.  [RemoteError] stands for whatever the client of the
    language model or the vector store raises. *)
Inductive exn : Type :=
  | JSONDecodeError (msg : string)
  | ValueError (msg : string)
  | TypeError (msg : string)
  | AttributeError (msg : string)
  | KeyError (msg : string)
  | RemoteError (msg : string)
  | HTTPException (status_code : Z) (detail : string).

Inductive outcome (A : Type) : Type :=
  | Ok (a : A)
  | Raise (e : exn).
Arguments Ok {A} a.
Arguments Raise {A} e.

(** [{"role": ..., "content": ...}] as sent to the chat model. *)
Record ChatMessage : Type := mkMsg { role : string; content : string }.

(** [datetime.strptime(_, "%Y-%m-%d")]: a calendar date at midnight. *)
Record date : Type := mkDate { year : Z; month : Z; day : Z }.

(** [models.DatetimeRange], [models.FieldCondition], [models.Filter]: the
    fields the program sets. *)
Record DatetimeRange : Type := mkRange { gte : option date; lte : option date }.
Record FieldCondition : Type := mkCond { key : string; range : DatetimeRange }.
Record Filter : Type := mkFilter { must : list FieldCondition }.

(** A document of the vector store: [doc.page_content], [doc.metadata].
    The values of the metadata are text: the documents of this model are
    those whose [url] and [date], where they are stored, are strings, which
    is what the response model of [app.py] asks of them.  A store whose
    payload holds other JSON values there is not described. *)
Record StoredDoc : Type :=
  mkDoc { page_content : string; metadata : gmap string string }.

(** The dictionary [extract_queries_and_date_filters] returns: the keys
    ["queries"] and ["date_filter"] are always there, ["error"] only in the
    fallback. *)
Record Extracted : Type :=
  mkExtracted { queries : json; date_filter : gmap string json; error : option string }.

(** One record of the question/answer log. *)
Record LogRecord : Type :=
  mkLog { time : string; question : string; answer : string }.

(** What [print] was given. *)
Inductive printed : Type :=
  | PInvalidDate (bound : string) (value : json)
  | PDateFilter (d : gmap string json)
  | PArticles (l : list (gmap string string)).

(** The observable effects, in the order they happen. *)
Inductive event : Type :=
  | EvChat (model : string) (messages : list ChatMessage) (json_object : bool)
  | EvSearch (query : string) (k : Z) (filter : option Filter)
  | EvPrint (p : printed)
  | EvLog (path : string) (record : LogRecord).

Definition trace : Type := list event.

(** Everything outside the repository.  An answer is a function of the call
    that is made; the theorems hold in every world, that is, however the
    outside answers. *)
Record World : Type := mkWorld {
  (** [client.chat.completions.create(...).choices[0].message.content];
      the flag is [response_format={"type": "json_object"}]. *)
  chat_completions_create : string → list ChatMessage → bool → outcome string;
  (** [json.loads]; [None] is [json.JSONDecodeError]. *)
  json_loads : string → option json;
  (** [vector_store.similarity_search(query, k, filter)]. *)
  similarity_search : string → Z → option Filter → outcome (list StoredDoc);
  (** [str(datetime.now())]. *)
  datetime_now : string;
  (** [datetime.today().strftime("%Y-%m-%d")] and
      [datetime.now().strftime("%Y-%m-%d %H:%M:%S")]. *)
  today_ymd : string;
  now_stamp : string;
  (** [os.getenv("APP_API_KEY")]. *)
  getenv_APP_API_KEY : option string;
  (** [traceback.format_exc()] in the handler of the given exception. *)
  format_exc : exn → string;
  (** [str(request.messages)]. *)
  str_messages : list (gmap string string) → string;
  (** [unicodedata.decimal(chr(cp), None)]: the decimal value the Unicode
      database of the interpreter gives the character with code point [cp],
      if it is a decimal digit.  It is asked for code points beyond ASCII
      only. *)
  unicodedata_decimal : Z → option Z
}.

(** ** The monad: a trace and exceptions *)

Definition M (A : Type) : Type := trace → outcome A * trace.

Definition ret {A} (a : A) : M A := λ t, (Ok a, t).

Definition bind {A B} (m : M A) (f : A → M B) : M B :=
  λ t, match m t with
       | (Ok a, t') => f a t'
       | (Raise e, t') => (Raise e, t')
       end.

Definition raise {A} (e : exn) : M A := λ t, (Raise e, t).

Definition lift {A} (o : outcome A) : M A := λ t, (o, t).

Definition emit (ev : event) : M unit := λ t, (Ok tt, t ++ [ev]).

(** [try: m  except <classes selected by handles> as e: h e]. *)
Definition try_except {A} (m : M A) (handles : exn → bool) (h : exn → M A) : M A :=
  λ t, match m t with
       | (Ok a, t') => (Ok a, t')
       | (Raise e, t') => if handles e then h e t' else (Raise e, t')
       end.

Declare Scope py_scope.
Delimit Scope py_scope with py.
Notation "'let*' x := m 'in' k" := (bind m (λ x, k))
  (at level 10, x name, m at level 100, k at level 200) : py_scope.
Notation "m ;; k" := (bind m (λ _, k))
  (at level 100, k at level 200, right associativity) : py_scope.
Local Open Scope py_scope.

(** ** Python built-ins *)

Definition str (e : exn) : string :=
  match e with
  | JSONDecodeError m | ValueError m | TypeError m | AttributeError m
  | KeyError m | RemoteError m => m
  | HTTPException c d => pretty c +:+ ": " +:+ d
  end.

(** The [except] clauses of the program. *)
Definition is_JSONDecodeError (e : exn) : bool :=
  match e with JSONDecodeError _ => true | _ => false end.
(** [json.JSONDecodeError] is a subclass of [ValueError]. *)
Definition is_ValueError (e : exn) : bool :=
  match e with JSONDecodeError _ | ValueError _ => true | _ => false end.
Definition is_Exception (e : exn) : bool := true.

(** The line feed, the double quote and the single quote. *)
Definition nl : string := String "010" EmptyString.
Definition dq : string := String "034" EmptyString.
Definition sq : string := String "039" EmptyString.

Definition type_name (v : json) : string :=
  match v with
  | JNull => "NoneType" | JBool _ => "bool" | JInt _ => "int"
  | JFloat _ => "float" | JStr _ => "str" | JArr _ => "list" | JObj _ => "dict"
  end.

Fixpoint assoc {V} (k : string) (l : list (string * V)) : option V :=
  match l with
  | [] => None
  | (k', v) :: rest => if decide (k = k') then Some v else assoc k rest
  end.

(** [needle in s] for two strings. *)
Definition is_substring (needle s : string) : bool :=
  match String.index 0 needle s with Some _ => true | None => false end.

Definition is_str (needle : string) (v : json) : bool :=
  match v with JStr s => bool_decide (s = needle) | _ => false end.

(** [d[k]] on a dictionary of strings. *)
Definition getitem (d : gmap string string) (k : string) : outcome string :=
  match d !! k with
  | Some v => Ok v
  | None => Raise (KeyError (sq +:+ k +:+ sq))
  end.

(** [v.get(k, dflt)]: only a dictionary has the method. *)
Definition py_get (v : json) (k : string) (dflt : json) : outcome json :=
  match v with
  | JObj kvs => Ok (default dflt (assoc k kvs))
  | _ => Raise (AttributeError
           (sq +:+ type_name v +:+ "' object has no attribute 'get'"))
  end.

(** [k in v], with a string on the left. *)
Definition py_contains (k : string) (v : json) : outcome bool :=
  match v with
  | JObj kvs => Ok (bool_decide (is_Some (assoc k kvs)))
  | JArr l => Ok (existsb (is_str k) l)
  | JStr s => Ok (is_substring k s)
  | _ => Raise (TypeError
           ("argument of type '" +:+ type_name v +:+ "' is not iterable"))
  end.

(** [v[k]], with a string as the subscript. *)
Definition py_getitem (v : json) (k : string) : outcome json :=
  match v with
  | JObj kvs =>
      match assoc k kvs with
      | Some x => Ok x
      | None => Raise (KeyError (sq +:+ k +:+ sq))
      end
  | JArr _ => Raise (TypeError "list indices must be integers or slices, not str")
  | JStr _ => Raise (TypeError "string indices must be integers, not 'str'")
  | _ => Raise (TypeError (sq +:+ type_name v +:+ "' object is not subscriptable"))
  end.

(** Truth value of a JSON value in a condition.  A [float] is false when it
    is zero of either sign, that is, when the 63 bits below the sign are
    zero. *)
Definition truthy (v : json) : bool :=
  match v with
  | JNull => false
  | JBool b => b
  | JInt n => negb (n =? 0)%Z
  | JFloat bits => negb (Z.land bits (2 ^ 63 - 1) =? 0)%Z
  | JStr s => negb (bool_decide (s = EmptyString))
  | JArr l => negb (bool_decide (l = []))
  | JObj l => negb (bool_decide (l = []))
  end.

(** Text is kept as its UTF-8 bytes.  A byte of the form [10xxxxxx]
    continues the character begun before it. *)
Definition byte (c : ascii) : Z := Z.of_nat (nat_of_ascii c).

Definition continuation (c : ascii) : option Z :=
  if (128 <=? byte c)%Z && (byte c <=? 191)%Z then Some (byte c - 128) else None.

(** The first character of a text, as its code point, and the rest. *)
Definition next_codepoint (s : string) : option (Z * string) :=
  match s with
  | EmptyString => None
  | String a s1 =>
      let b0 := byte a in
      if (b0 <? 128)%Z then Some (b0, s1)
      else if (194 <=? b0)%Z && (b0 <=? 223)%Z then
        match s1 with
        | String c1 s2 =>
            x1 ← continuation c1;
            Some ((b0 - 192) * 64 + x1, s2)
        | _ => None
        end
      else if (224 <=? b0)%Z && (b0 <=? 239)%Z then
        match s1 with
        | String c1 (String c2 s3) =>
            x1 ← continuation c1;
            x2 ← continuation c2;
            let cp := ((b0 - 224) * 64 + x1) * 64 + x2 in
            if (2048 <=? cp)%Z && negb ((55296 <=? cp)%Z && (cp <=? 57343)%Z)
            then Some (cp, s3) else None
        | _ => None
        end
      else if (240 <=? b0)%Z && (b0 <=? 244)%Z then
        match s1 with
        | String c1 (String c2 (String c3 s4)) =>
            x1 ← continuation c1;
            x2 ← continuation c2;
            x3 ← continuation c3;
            let cp := (((b0 - 240) * 64 + x1) * 64 + x2) * 64 + x3 in
            if (65536 <=? cp)%Z && (cp <=? 1114111)%Z then Some (cp, s4) else None
        | _ => None
        end
      else None
  end.

(** The characters of a text, each as a text of its own: what iterating
    over a [str] yields.  [split_chars] returns the continuation bytes at
    the front, which well-formed text does not have, apart. *)
Fixpoint split_chars (s : string) : string * list string :=
  match s with
  | EmptyString => (EmptyString, [])
  | String a rest =>
      let '(tail, chars) := split_chars rest in
      if continuation a is Some _ then (String a tail, chars)
      else (EmptyString, String a tail :: chars)
  end.

Definition chars (s : string) : list string :=
  let '(tail, chars) := split_chars s in
  match tail with
  | EmptyString => chars
  | _ => tail :: chars
  end.

(** [" ".join(v)]: [v] must be iterable and yield strings.  A list yields
    its items, a string its characters, a dictionary its keys. *)
Fixpoint str_items (i : nat) (l : list json) : outcome (list string) :=
  match l with
  | [] => Ok []
  | JStr s :: rest =>
      match str_items (S i) rest with
      | Ok ss => Ok (s :: ss)
      | Raise e => Raise e
      end
  | v :: _ => Raise (TypeError
      ("sequence item " +:+ pretty i +:+ ": expected str instance, "
         +:+ type_name v +:+ " found"))
  end.

Definition join (sep : string) (v : json) : outcome string :=
  match v with
  | JArr l =>
      match str_items 0 l with
      | Ok ss => Ok (String.concat sep ss)
      | Raise e => Raise e
      end
  | JStr s => Ok (String.concat sep (chars s))
  | JObj kvs => Ok (String.concat sep (fst <$> kvs))
  | _ => Raise (TypeError "can only join an iterable")
  end.

(** ** [datetime.strptime(s, "%Y-%m-%d")]

    The directives are matched as the regular expressions CPython builds for
    them, alternatives tried from the left: [%Y] is [\d\d\d\d], [%m] is
    [1[0-2]|0[1-9]|[1-9]], [%d] is [3[0-1]|[1-2]\d|0[1-9]|[1-9]| [1-9]];
    the whole string has to be consumed and the date has to exist.  The
    classes written with a range hold ASCII digits only; [\d] matches every
    decimal digit of Unicode, and [int] reads such a digit as its decimal
    value. *)

Definition between (lo hi c : ascii) : bool :=
  (nat_of_ascii lo <=? nat_of_ascii c)%nat && (nat_of_ascii c <=? nat_of_ascii hi)%nat.

Definition is_digit (c : ascii) : bool := between "0" "9" c.

Definition digit (c : ascii) : Z := Z.of_nat (nat_of_ascii c) - 48.

(** [\d]: one decimal digit, ASCII or not, as its value. *)
Definition dec_digit (w : World) (s : string) : option (Z * string) :=
  match s with
  | String a rest =>
      if is_digit a then Some (digit a, rest)
      else
        '(cp, rest') ← next_codepoint s;
        if (cp <? 128)%Z then None
        else
          v ← unicodedata_decimal w cp;
          if (0 <=? v)%Z && (v <=? 9)%Z then Some (v, rest') else None
  | EmptyString => None
  end.

Definition parse_Y (w : World) (s : string) : option (Z * string) :=
  '(a, s) ← dec_digit w s;
  '(b, s) ← dec_digit w s;
  '(c, s) ← dec_digit w s;
  '(d, s) ← dec_digit w s;
  Some (1000 * a + 100 * b + 10 * c + d, s).

Definition parse_m (s : string) : option (Z * string) :=
  match s with
  | String a rest =>
      let one := if between "1" "9" a then Some (digit a, rest) else None in
      match rest with
      | String b rest' =>
          if bool_decide (a = "1"%char) && between "0" "2" b then Some (10 + digit b, rest')
          else if bool_decide (a = "0"%char) && between "1" "9" b then Some (digit b, rest')
          else one
      | EmptyString => one
      end
  | EmptyString => None
  end.

Definition parse_d (w : World) (s : string) : option (Z * string) :=
  match s with
  | String a rest =>
      let one := if between "1" "9" a then Some (digit a, rest) else None in
      match rest with
      | String b rest' =>
          if bool_decide (a = "3"%char) && between "0" "1" b then Some (30 + digit b, rest')
          else
            match (if between "1" "2" a then dec_digit w rest else None) with
            | Some (v, rest'') => Some (10 * digit a + v, rest'')
            | None =>
                if bool_decide (a = "0"%char) && between "1" "9" b then Some (digit b, rest')
                else if between "1" "9" a then Some (digit a, rest)
                else if bool_decide (a = " "%char) && between "1" "9" b then Some (digit b, rest')
                else None
            end
      | EmptyString => one
      end
  | EmptyString => None
  end.

Definition expect_dash (s : string) : option string :=
  match s with
  | String "-" rest => Some rest
  | _ => None
  end.

Definition is_leap (y : Z) : bool :=
  (y mod 4 =? 0)%Z && (negb (y mod 100 =? 0)%Z || (y mod 400 =? 0)%Z).

Definition days_in_month (y m : Z) : Z :=
  if (m =? 2)%Z then (if is_leap y then 29 else 28)
  else if (m =? 4)%Z || (m =? 6)%Z || (m =? 9)%Z || (m =? 11)%Z then 30
  else 31.

(** A date [datetime] accepts: years 1 to 9999. *)
Definition valid_date (d : date) : bool :=
  (1 <=? year d)%Z && (year d <=? 9999)%Z &&
  (1 <=? month d)%Z && (month d <=? 12)%Z &&
  (1 <=? day d)%Z && (day d <=? days_in_month (year d) (month d))%Z.

Definition strptime_ymd (w : World) (s : string) : option date :=
  '(y, s) ← parse_Y w s;
  s ← expect_dash s;
  '(m, s) ← parse_m s;
  s ← expect_dash s;
  '(d, s) ← parse_d w s;
  if bool_decide (s = EmptyString) && valid_date (mkDate y m d)
  then Some (mkDate y m d) else None.

(** How the message of a rejected argument names its type: [None] is named
    as the value, everything else by its class. *)
Definition arg_type_name (v : json) : string :=
  match v with
  | JNull => "None"
  | _ => type_name v
  end.

(** The call as the program makes it, on whatever value the dictionary
    holds: text that does not parse raises [ValueError], a value that is not
    text raises [TypeError].  The text of the [ValueError] is never read by
    the program, whose handler prints the bound itself; it is kept as the
    message of a string that does not match. *)
Definition datetime_strptime (w : World) (v : json) : outcome date :=
  match v with
  | JStr s =>
      match strptime_ymd w s with
      | Some d => Ok d
      | None => Raise (ValueError
          ("time data '" +:+ s +:+ "' does not match format '%Y-%m-%d'"))
      end
  | _ => Raise (TypeError
      ("strptime() argument 1 must be str, not " +:+ arg_type_name v))
  end.

(** ** [rag_service.py] *)

Definition q (s : string) : string := dq +:+ s +:+ dq.

Definition extraction_instructions : string :=
  String.concat nl [
    "Extract search queries and date filters from the conversation.";
    "    Format the response as a JSON object with the following structure:";
    "    {";
    "      " +:+ q "queries" +:+ ": [" +:+ q "search phrase 1" +:+ ", " +:+ q "search phrase 2" +:+ "],";
    "      " +:+ q "date_filter" +:+ ": {";
    "        " +:+ q "gte" +:+ ": " +:+ q "YYYY-MM-DD" +:+ ", // Optional greater than or equal to date";
    "        " +:+ q "lte" +:+ ": " +:+ q "YYYY-MM-DD" +:+ "  // Optional less than or equal to date";
    "      }";
    "    }";
    "    ";
    "    For date filters:";
    "    - Extract dates mentioned with phrases like " +:+ q "after" +:+ ", " +:+ q "since" +:+ ", "
      +:+ q "from" +:+ ", " +:+ q "newer than" +:+ " as " +:+ q "gte";
    "    - Extract dates mentioned with phrases like " +:+ q "before" +:+ ", " +:+ q "until" +:+ ", "
      +:+ q "older than" +:+ " as " +:+ q "lte";
    "    - Convert all dates to YYYY-MM-DD format";
    "    - Only include the date_filter object if dates are explicitly mentioned";
    "    - If a date filter is not specified, omit that field completely";
    "    ";
    "    For queries:";
    "    - Extract main search terms and topics the user is looking for";
    "    - Ignore common words like " +:+ q "find" +:+ ", " +:+ q "search" +:+ ", " +:+ q "show me" +:+ ", etc.";
    "    - split and phase in 2 different queries";
    EmptyString;
    "    Example:";
    "    Input: news about AI";
    "    Output queries: ['news about AI']";
    "    "
  ].

Definition rag_instructions : string :=
  String.concat nl [
    "You are a helpful assistant that answers questions based on retrieved news articles.";
    "    Always use the provided news sources to inform your answers.";
    "    ";
    "    Guidelines:";
    "    1. Answer ONLY based on the provided sources - don't use outside knowledge";
    "    2. If the sources don't contain relevant information, acknowledge this limitation";
    "    3. Cite sources using [Source X] notation inline when referring to specific information";
    "    4. Format your response in Markdown";
    "    5. Include a " +:+ q "Sources" +:+ " section at the end with numbered references to the original URLs";
    "    6. Be concise but comprehensive";
    "    7. If sources contradict each other, note the discrepancies";
    "    "
  ].

(** The f-string of [generate_rag_response]. *)
Definition rag_user_prompt (context last_message : string) : string :=
  String.concat nl [
    EmptyString;
    "    ### Retrieved News Sources:";
    "    ";
    "    " +:+ context;
    "    ";
    "    ### User Question:";
    "    " +:+ last_message;
    "    ";
    "    Based on these sources, please provide a detailed answer in Markdown format.";
    "    "
  ].

(** [{"role": r, "content": c}] as a dictionary. *)
Definition msg_dict (r c : string) : gmap string string :=
  {[ "role" := r; "content" := c ]}.

(** [{"title": ..., "url": ..., "date": ...}]. *)
Definition article (title url date : string) : gmap string string :=
  {[ "title" := title; "url" := url; "date" := date ]}.

(** The generator [msg["content"] for msg in reversed(messages)
    if msg["role"] == "user"] given to [next] with the empty string as
    default, on the reversed list. *)
Fixpoint first_user_content (reversed : list (gmap string string)) : outcome string :=
  match reversed with
  | [] => Ok EmptyString
  | msg :: rest =>
      match getitem msg "role" with
      | Ok r => if bool_decide (r = "user") then getitem msg "content"
                else first_user_content rest
      | Raise e => Raise e
      end
  end.

Definition last_user_message (messages : list (gmap string string)) : outcome string :=
  first_user_content (reverse messages).

(** [result["date_filter"][k] = v]. *)
Definition set_date_filter (result : Extracted) (k : string) (v : json) : Extracted :=
  mkExtracted (queries result) (<[k := v]> (date_filter result)) (error result).

Section Program.

Context (w : World).

Definition chat (model : string) (messages : list ChatMessage) (json_object : bool) : M string :=
  emit (EvChat model messages json_object);;
  lift (chat_completions_create w model messages json_object).

Definition search (query : string) (k : Z) (filter : option Filter) : M (list StoredDoc) :=
  emit (EvSearch query k filter);;
  lift (similarity_search w query k filter).

Definition loads (s : string) : M json :=
  match json_loads w s with
  | Some v => ret v
  | None => raise (JSONDecodeError "Expecting value")
  end.

(** [for msg in messages: extraction_messages.append(...)]. *)
Fixpoint append_history (extraction_messages : list ChatMessage)
    (messages : list (gmap string string)) : M (list ChatMessage) :=
  match messages with
  | [] => ret extraction_messages
  | msg :: rest =>
      let* r := lift (getitem msg "role") in
      let* c := lift (getitem msg "content") in
      append_history (extraction_messages ++ [mkMsg r c]) rest
  end.

Definition extract_queries_and_date_filters (messages : list (gmap string string)) : M Extracted :=
  let system_prompt := extraction_instructions +:+ "Date now: " +:+ datetime_now w in
  let extraction_messages := [mkMsg "system" system_prompt] in
  let* extraction_messages := append_history extraction_messages messages in
  let* completion := chat "gpt-4o" extraction_messages true in
  try_except
    (let* extracted_data := loads completion in
     let* qs := lift (py_get extracted_data "queries" (JArr [])) in
     let result := mkExtracted qs ∅ None in
     let* has_date_filter := lift (py_contains "date_filter" extracted_data) in
     if has_date_filter : bool then
       let* date_filter := lift (py_getitem extracted_data "date_filter") in
       let* has_gte := lift (py_contains "gte" date_filter) in
       let* result :=
         if has_gte : bool then
           let* v := lift (py_getitem date_filter "gte") in
           ret (set_date_filter result "gte" v)
         else ret result in
       let* has_lte := lift (py_contains "lte" date_filter) in
       let* result :=
         if has_lte : bool then
           let* v := lift (py_getitem date_filter "lte") in
           ret (set_date_filter result "lte" v)
         else ret result in
       ret result
     else ret result)
    is_JSONDecodeError
    (λ _, ret (mkExtracted (JArr []) ∅ (Some "JSONDecodeError"))).

(** [for i, news in enumerate(retrieved_news): context += f"..."], from
    index [i] on. *)
Fixpoint context_loop (i : nat) (context : string)
    (retrieved_news : list (gmap string string)) : M string :=
  match retrieved_news with
  | [] => ret context
  | news :: rest =>
      let* title := lift (getitem news "title") in
      let* url := lift (getitem news "url") in
      context_loop (S i)
        (context +:+ "Source " +:+ pretty (i + 1)%nat +:+ ": " +:+ title +:+ nl
                 +:+ "URL: " +:+ url +:+ nl +:+ nl)
        rest
  end.

Definition generate_rag_response (messages retrieved_news : list (gmap string string)) : M string :=
  let* last_message := lift (last_user_message messages) in
  let context := EmptyString in
  let* context := context_loop 0 context retrieved_news in
  let system_prompt := rag_instructions in
  let user_prompt := rag_user_prompt context last_message in
  let rag_messages := [mkMsg "system" system_prompt; mkMsg "user" user_prompt] in
  let* completion := chat "gpt-4o" rag_messages false in
  ret completion.

(** [max_results] is [None] when the caller leaves the default. *)
Definition retrieve_news (query : string) (date_filters : gmap string json)
    (max_results : option Z) : M (list (gmap string string)) :=
  let max_results := default 5 max_results in
  let must_conditions : list FieldCondition := [] in
  let* must_conditions :=
    if bool_decide (size date_filters ≠ 0%nat) then
      let date_range := mkRange None None in
      let* date_range :=
        match date_filters !! "gte" with
        | Some v =>
            try_except
              (let* gte_date := lift (datetime_strptime w v) in
               ret (mkRange (Some gte_date) (lte date_range)))
              is_ValueError
              (λ _, emit (EvPrint (PInvalidDate "gte" v));; ret date_range)
        | None => ret date_range
        end in
      let* date_range :=
        match date_filters !! "lte" with
        | Some v =>
            try_except
              (let* lte_date := lift (datetime_strptime w v) in
               ret (mkRange (gte date_range) (Some lte_date)))
              is_ValueError
              (λ _, emit (EvPrint (PInvalidDate "lte" v));; ret date_range)
        | None => ret date_range
        end in
      if bool_decide (is_Some (gte date_range)) || bool_decide (is_Some (lte date_range))
      then ret (must_conditions ++ [mkCond "metadata.date" date_range])
      else ret must_conditions
    else ret must_conditions in
  let filter_condition :=
    match must_conditions with
    | [] => None
    | _ => Some (mkFilter must_conditions)
    end in
  let* results := search query max_results filter_condition in
  let news_articles :=
    foldl (λ news_articles doc,
             news_articles ++
               [article (page_content doc)
                        (default "#" (metadata doc !! "url"))
                        (default "Unknown date" (metadata doc !! "date"))])
          [] results in
  ret news_articles.

Definition respond (message : string) (history : list (string * string)) : M string :=
  let messages :=
    foldl (λ messages h,
             messages ++ [msg_dict "user" h.1; msg_dict "assistant" h.2])
          [] history in
  let messages := (messages ++ [msg_dict "user" message]) in
  let* extracted := extract_queries_and_date_filters messages in
  let* query :=
    if truthy (queries extracted) then lift (join " " (queries extracted))
    else ret message in
  emit (EvPrint (PDateFilter (date_filter extracted)));;
  let* news_articles := retrieve_news query (date_filter extracted) None in
  emit (EvPrint (PArticles news_articles));;
  let* response := generate_rag_response messages news_articles in
  ret response.

End Program.

(** ** [app.py] *)

Record RetrievalRequest : Type := mkRetrievalRequest { query : string }.
Record CompletionRequest : Type :=
  mkCompletionRequest { messages : list (gmap string string) }.
Record NewsArticle : Type := mkNews { title : string; url : string; date_ : string }.
Record RetrievalResponse : Type := mkRetrievalResponse { articles : list NewsArticle }.
Record CompletionResponse : Type := mkCompletionResponse { response : string }.

(** An HTTP request as the code of an endpoint receives it: its headers,
    names in lower case, and its body, decoded and validated against the
    request model of the endpoint ([RetrievalRequest], [CompletionRequest]).
    The framework answers a body that does not decode or does not validate
    with 422 on its own, without calling the handler; such a request is not
    a [Request]. *)
Record Request (B : Type) : Type := mkRequest { headers : gmap string string; body : B }.
Arguments mkRequest {B} headers body.
Arguments headers {B} r.
Arguments body {B} r.

(** What the client gets back: the handler's value with status 200, or the
    status and detail of an error. *)
Inductive HttpResponse (R : Type) : Type :=
  | Http200 (r : R)
  | HttpError (status : Z) (detail : string).
Arguments Http200 {R} r.
Arguments HttpError {R} status detail.

Definition HTTP_401_UNAUTHORIZED : Z := 401.
Definition HTTP_500_INTERNAL_SERVER_ERROR : Z := 500.

Definition path_to_logs : string := "logs".

Definition get_api_key_header {B} (request : Request B) : string :=
  default EmptyString (headers request !! "x-api-key").

(** Validation of one [NewsArticle] by the response model: the three fields
    are required and have to be text.  The dictionaries [retrieve_news]
    builds here hold text only (see [StoredDoc]), so what is left to check
    is that the fields are there. *)
Definition validate_article (d : gmap string string) : outcome NewsArticle :=
  match d !! "title", d !! "url", d !! "date" with
  | Some t, Some u, Some dt => Ok (mkNews t u dt)
  | _, _, _ => Raise (ValueError "validation error for NewsArticle")
  end.

Fixpoint validate_articles (l : list (gmap string string)) : outcome (list NewsArticle) :=
  match l with
  | [] => Ok []
  | d :: rest =>
      match validate_article d with
      | Ok a =>
          match validate_articles rest with
          | Ok l' => Ok (a :: l')
          | Raise e => Raise e
          end
      | Raise e => Raise e
      end
  end.

Section App.

Context (w : World).

Definition get_api_key {B} (request : Request B) : M string :=
  let api_key := get_api_key_header request in
  if bool_decide (Some api_key ≠ getenv_APP_API_KEY w) then
    raise (HTTPException HTTP_401_UNAUTHORIZED "Invalid API Key")
  else ret api_key.

(** Appending the record to the file of the day; the write itself is taken
    to succeed. *)
Definition write_log (question answer : string) : M unit :=
  let current_date := today_ymd w in
  let current_time := now_stamp w in
  let record := mkLog current_time question answer in
  emit (EvLog (path_to_logs +:+ "/" +:+ current_date +:+ "_chat_log.txt") record).

(** The [try] block of [get_retrieval]. *)
Definition get_retrieval_try (request : RetrievalRequest) : M RetrievalResponse :=
  let* extracted :=
    extract_queries_and_date_filters w [msg_dict "user" (query request)] in
  let* articles := retrieve_news w (query request) (date_filter extracted) None in
  let* articles := lift (validate_articles articles) in
  ret (mkRetrievalResponse articles).

Definition get_retrieval (request : RetrievalRequest) (api_key : string) : M RetrievalResponse :=
  try_except (get_retrieval_try request) is_Exception
    (λ e,
       let stack_trace := format_exc w e in
       write_log (query request)
         ("ERROR: " +:+ str e +:+ nl +:+ "Stack Trace:" +:+ nl +:+ stack_trace);;
       raise (HTTPException HTTP_500_INTERNAL_SERVER_ERROR
                (str e +:+ nl +:+ "Stack Trace:" +:+ nl +:+ stack_trace))).

(** The [try] block of [get_completion]. *)
Definition get_completion_try (request : CompletionRequest) : M CompletionResponse :=
  let* last_message := lift (last_user_message (messages request)) in
  let* extracted := extract_queries_and_date_filters w (messages request) in
  let* articles := retrieve_news w last_message (date_filter extracted) None in
  let* response := generate_rag_response w (messages request) articles in
  ret (mkCompletionResponse response).

Definition get_completion (request : CompletionRequest) (api_key : string) : M CompletionResponse :=
  try_except (get_completion_try request) is_Exception
    (λ e,
       let stack_trace := format_exc w e in
       write_log (str_messages w (messages request))
         ("ERROR: " +:+ str e +:+ nl +:+ "Stack Trace:" +:+ nl +:+ stack_trace);;
       raise (HTTPException HTTP_500_INTERNAL_SERVER_ERROR
                (str e +:+ nl +:+ "Stack Trace:" +:+ nl +:+ stack_trace))).

(** A route with [Depends(get_api_key)]: the dependency is resolved first,
    the handler runs on its result; an [HTTPException] becomes the response
    with its status and detail, any other exception a plain 500. *)
Definition route {B R} (handler : B → string → M R) (request : Request B)
    : trace → HttpResponse R * trace :=
  λ t, match (let* api_key := get_api_key request in
              handler (body request) api_key) t with
       | (Ok r, t') => (Http200 r, t')
       | (Raise (HTTPException status detail), t') => (HttpError status detail, t')
       | (Raise _, t') => (HttpError 500 "Internal Server Error", t')
       end.

(** [POST /api/retrieval] and [POST /api/completion]. *)
Definition post_api_retrieval : Request RetrievalRequest → trace → HttpResponse RetrievalResponse * trace :=
  route get_retrieval.
Definition post_api_completion : Request CompletionRequest → trace → HttpResponse CompletionResponse * trace :=
  route get_completion.

End App.

(** ** Notions used to state the properties *)

(** A well-formed transcript entry as the dictionary the program receives. *)
Definition to_dict (m : ChatMessage) : gmap string string :=
  msg_dict (role m) (content m).

(** The messages of the extraction call for a transcript. *)
Definition extraction_request (w : World) (transcript : list ChatMessage) : list ChatMessage :=
  mkMsg "system" (extraction_instructions +:+ "Date now: " +:+ datetime_now w) :: transcript.

(** The transcript [respond] builds from the chat history and the current
    message. *)
Definition transcript_of (history : list (string * string)) (message : string)
    : list ChatMessage :=
  (h ← history; [mkMsg "user" h.1; mkMsg "assistant" h.2]) ++ [mkMsg "user" message].

(** The article [retrieve_news] builds from a stored document. *)
Definition article_of (doc : StoredDoc) : gmap string string :=
  article (page_content doc)
          (default "#" (metadata doc !! "url"))
          (default "Unknown date" (metadata doc !! "date")).

(** The Filter Compiler as the specification words it: each bound is parsed
    as a calendar date, a bound that does not parse is dropped, and no valid
    bound at all means no filter. *)
Definition parse_bound (w : World) (o : option json) : option date :=
  match o with
  | Some (JStr s) => strptime_ymd w s
  | _ => None
  end.

Definition compile (w : World) (date_filters : gmap string json) : option Filter :=
  match parse_bound w (date_filters !! "gte"), parse_bound w (date_filters !! "lte") with
  | None, None => None
  | g, l => Some (mkFilter [mkCond "metadata.date" (mkRange g l)])
  end.

(** What [retrieve_news] prints for a bound that is text and does not parse. *)
Definition invalid_print (w : World) (bound : string) (date_filters : gmap string json) :
    list event :=
  match date_filters !! bound with
  | Some (JStr s) =>
      match strptime_ymd w s with
      | Some _ => []
      | None => [EvPrint (PInvalidDate bound (JStr s))]
      end
  | _ => []
  end.

(** A bound that is present and is not text makes [strptime] raise
    [TypeError], which [except ValueError] lets through. *)
Definition bound_crash (o : option json) : option exn :=
  match o with
  | None | Some (JStr _) => None
  | Some v => Some (TypeError ("strptime() argument 1 must be str, not " +:+ arg_type_name v))
  end.



(** The filters of the searches recorded in a trace, in order. *)
Definition issued_filters (t : trace) : list (option Filter) :=
  omap (λ ev, match ev with EvSearch _ _ f => Some f | _ => None end) t.

(** A document with its three fields, and the dictionary [retrieve_news]
    makes of it. *)
Definition to_article (d : NewsArticle) : gmap string string :=
  article (title d) (url d) (date_ d).

(** The context block as the specification words it: the documents in input
    order, the one at position [i] (from 0) headed by its 1-based number. *)
Definition render_source (i : nat) (d : NewsArticle) : string :=
  "Source " +:+ pretty (i + 1)%nat +:+ ": " +:+ title d +:+ nl
    +:+ "URL: " +:+ url d +:+ nl +:+ nl.

Definition context_block (docs : list NewsArticle) : string :=
  foldr String.append EmptyString (imap render_source docs).

(** The claim that extraction validates the dates it returns. *)
Definition extraction_validates_dates : Prop :=
  ∀ (w : World) (messages : list (gmap string string)) (t t' : trace) (r : Extracted),
    extract_queries_and_date_filters w messages t = (Ok r, t') →
    ∀ b v, b = "gte" ∨ b = "lte" →
      date_filter r !! b = Some v → ∃ d, datetime_strptime w v = Ok d.


(** The claim that a request without the header, or with a header that
    differs from the configured key, is rejected with 401 and leaves no
    trace, on both routes. *)
Definition rejects_missing_or_wrong_key : Prop :=
  ∀ (w : World) (t : trace),
    (∀ req : Request RetrievalRequest,
       headers req !! "x-api-key" = None ∨
       headers req !! "x-api-key" ≠ getenv_APP_API_KEY w →
       post_api_retrieval w req t = (HttpError 401 "Invalid API Key", t)) ∧
    (∀ req : Request CompletionRequest,
       headers req !! "x-api-key" = None ∨
       headers req !! "x-api-key" ≠ getenv_APP_API_KEY w →
       post_api_completion w req t = (HttpError 401 "Invalid API Key", t)).

(** The file the question/answer log goes to. *)
Definition chat_log (w : World) : string :=
  path_to_logs +:+ "/" +:+ today_ymd w +:+ "_chat_log.txt".

(** A computation without effects: it leaves the trace as it is. *)
Definition silent {A} (m : M A) : Prop := ∀ t, (m t).2 = t.

(** The queries of the searches recorded in a trace, in order. *)
Definition issued_queries (t : trace) : list string :=
  omap (λ ev, match ev with EvSearch qu _ _ => Some qu | _ => None end) t.

(** Answers of the model to the extraction call, and what [json.loads]
    makes of them. *)
Definition reply_last_week : string :=
  "{" +:+ q "queries" +:+ ": [" +:+ q "AI news" +:+ "], " +:+ q "date_filter"
      +:+ ": {" +:+ q "gte" +:+ ": " +:+ q "last week" +:+ "}}".
Definition parsed_last_week : json :=
  JObj [("queries", JArr [JStr "AI news"]);
        ("date_filter", JObj [("gte", JStr "last week")])].

Definition reply_two_queries : string :=
  "{" +:+ q "queries" +:+ ": [" +:+ q "AI regulation" +:+ ", " +:+ q "chip exports" +:+ "]}".
Definition parsed_two_queries : json :=
  JObj [("queries", JArr [JStr "AI regulation"; JStr "chip exports"])].

Definition reply_no_queries : string := "{" +:+ q "queries" +:+ ": []}".
Definition parsed_no_queries : json := JObj [("queries", JArr [])].

(** ** Concrete worlds, to run the program on *)

Definition stored_docs : list StoredDoc :=
  [ mkDoc "AI act passed" {[ "url" := "https://news.example/ai-act"; "date" := "2024-03-01" ]};
    mkDoc "Chip export rules" ∅ ].

(** Decimal digits beyond ASCII, for the worlds below: the Arabic-Indic
    digits U+0660 to U+0669 and the fullwidth digits U+FF10 to U+FF19, two
    of the blocks of decimal digits of the Unicode database. *)
Definition decimal_digits (cp : Z) : option Z :=
  if (1632 <=? cp)%Z && (cp <=? 1641)%Z then Some (cp - 1632)
  else if (65296 <=? cp)%Z && (cp <=? 65305)%Z then Some (cp - 65296)
  else None.

(** [2024-01-1] followed by the Arabic-Indic digit five, U+0665. *)
Definition arabic_indic_15th : string :=
  "2024-01-1" +:+ String "217" (String "165" EmptyString).

(** A world where the model answers [reply] to the extraction call, the
    decoder reads [reply] as [parsed], the store answers [store] (cut to the
    [k] asked for) and the configured key is [secret]. *)
Definition world (reply : string) (parsed : option json)
    (store : outcome (list StoredDoc)) (secret : option string) : World :=
  {| chat_completions_create := λ _ _ json_object,
       if json_object then Ok reply else Ok "Nothing new. [Source 1]";
     json_loads := λ s, if decide (s = reply) then parsed else None;
     similarity_search := λ _ k _,
       match store with
       | Ok docs => Ok (take (Z.to_nat k) docs)
       | Raise e => Raise e
       end;
     datetime_now := "2024-06-01 12:00:00.000000";
     today_ymd := "2024-06-01";
     now_stamp := "2024-06-01 12:00:00";
     getenv_APP_API_KEY := secret;
     format_exc := λ e, "Traceback (most recent call last): " +:+ str e;
     str_messages := λ l, String.concat ", " (default EmptyString ∘ (.!! "content") <$> l);
     unicodedata_decimal := decimal_digits |}.

(** The worlds of the examples below. *)
Definition w_last_week : World :=
  world reply_last_week (Some parsed_last_week) (Ok stored_docs) (Some "s3cret").
Definition w_two_queries : World :=
  world reply_two_queries (Some parsed_two_queries) (Ok stored_docs) (Some "s3cret").
Definition w_not_json : World :=
  world "Sorry, I cannot help with that." None (Ok stored_docs) (Some "s3cret").
Definition w_array : World :=
  world "[]" (Some (JArr [])) (Ok stored_docs) (Some "s3cret").
Definition w_store_down : World :=
  world reply_no_queries (Some parsed_no_queries)
        (Raise (RemoteError "connection refused")) (Some "s3cret").
Definition w_empty_key : World :=
  world reply_no_queries (Some parsed_no_queries) (Ok stored_docs) (Some EmptyString).

Definition with_key (k : string) {B} (b : B) : Request B :=
  mkRequest {[ "x-api-key" := k ]} b.
Definition without_key {B} (b : B) : Request B := mkRequest ∅ b.

(** ** Further notions, for the properties beyond the claims *)

(** A message dictionary without a role or without a content. *)
Definition ill_formed (m : gmap string string) : Prop :=
  m !! "role" = None ∨ m !! "content" = None.

(** An article dictionary without a title or without a url. *)
Definition untitled (news : gmap string string) : Prop :=
  news !! "title" = None ∨ news !! "url" = None.

(** The JSON values [in] accepts on its right. *)
Definition iterable (v : json) : Prop :=
  match v with
  | JStr _ | JArr _ | JObj _ => True
  | _ => False
  end.

(** The [NewsArticle] of the response for a stored document. *)
Definition news_of (doc : StoredDoc) : NewsArticle :=
  mkNews (page_content doc)
         (default "#" (metadata doc !! "url"))
         (default "Unknown date" (metadata doc !! "date")).

(** The records written to the question/answer log, in order. *)
Definition logged (t : trace) : list LogRecord :=
  omap (λ ev, match ev with EvLog _ r => Some r | _ => None end) t.

(** The calls to the model recorded in a trace, in order. *)
Definition model_calls (t : trace) : list (list ChatMessage * bool) :=
  omap (λ ev, match ev with EvChat _ ms j => Some (ms, j) | _ => None end) t.

(** A computation that only adds events that satisfy [P] to the trace. *)
Definition emits (P : event → Prop) {A} (m : M A) : Prop :=
  ∀ t, ∃ l, (m t).2 = t ++ l ∧ Forall P l.

Definition not_log (ev : event) : Prop :=
  match ev with EvLog _ _ => False | _ => True end.

(** The 2-digit and 4-digit decimal renderings of [strftime], and the date
    as [%Y-%m-%d] writes it. *)
Definition digit_char (n : Z) : ascii := ascii_of_nat (48 + Z.to_nat n).

Definition two_digits (n : Z) (rest : string) : string :=
  String (digit_char (n / 10)) (String (digit_char (n mod 10)) rest).

Definition four_digits (n : Z) (rest : string) : string :=
  String (digit_char (n / 1000))
    (String (digit_char (n / 100 mod 10)) (two_digits (n mod 100) rest)).

Definition iso_format (d : date) : string :=
  four_digits (year d)
    (String "-" (two_digits (month d) (String "-" (two_digits (day d) EmptyString)))).

(** More worlds: the model is unreachable; the model answers with an empty
    object; the model sets [date_filter] to [null]; the model gives both
    bounds; the model puts a number among the queries, next to a date
    filter; no key is configured. *)
Definition w_model_down : World :=
  {| chat_completions_create := λ _ _ _, Raise (RemoteError "rate limit exceeded");
     json_loads := λ _, None;
     similarity_search := λ _ _ _, Ok stored_docs;
     datetime_now := "2024-06-01 12:00:00.000000";
     today_ymd := "2024-06-01";
     now_stamp := "2024-06-01 12:00:00";
     getenv_APP_API_KEY := Some "s3cret";
     format_exc := λ e, "Traceback (most recent call last): " +:+ str e;
     str_messages := λ l, String.concat ", " (default EmptyString ∘ (.!! "content") <$> l);
     unicodedata_decimal := decimal_digits |}.

Definition w_empty_object : World :=
  world "{}" (Some (JObj [])) (Ok stored_docs) (Some "s3cret").

Definition reply_null_filter : string :=
  "{" +:+ q "queries" +:+ ": [" +:+ q "AI news" +:+ "], " +:+ q "date_filter" +:+ ": null}".
Definition parsed_null_filter : json :=
  JObj [("queries", JArr [JStr "AI news"]); ("date_filter", JNull)].
Definition w_null_filter : World :=
  world reply_null_filter (Some parsed_null_filter) (Ok stored_docs) (Some "s3cret").

Definition reply_range : string :=
  "{" +:+ q "queries" +:+ ": [" +:+ q "AI news" +:+ "], " +:+ q "date_filter" +:+ ": {"
      +:+ q "gte" +:+ ": " +:+ q "2024-01-01" +:+ ", " +:+ q "lte" +:+ ": " +:+ q "2024-03-31"
      +:+ ", " +:+ q "note" +:+ ": " +:+ q "first quarter" +:+ "}}".
Definition parsed_range : json :=
  JObj [("queries", JArr [JStr "AI news"]);
        ("date_filter", JObj [("gte", JStr "2024-01-01"); ("lte", JStr "2024-03-31");
                              ("note", JStr "first quarter")])].
Definition w_range : World :=
  world reply_range (Some parsed_range) (Ok stored_docs) (Some "s3cret").

Definition reply_number_query : string :=
  "{" +:+ q "queries" +:+ ": [" +:+ q "AI news" +:+ ", 2024], " +:+ q "date_filter"
      +:+ ": {" +:+ q "gte" +:+ ": " +:+ q "2024-01-01" +:+ "}}".
Definition parsed_number_query : json :=
  JObj [("queries", JArr [JStr "AI news"; JInt 2024]);
        ("date_filter", JObj [("gte", JStr "2024-01-01")])].
Definition w_number_query : World :=
  world reply_number_query (Some parsed_number_query) (Ok stored_docs) (Some "s3cret").

Definition w_no_key : World :=
  world reply_no_queries (Some parsed_no_queries) (Ok stored_docs) None.

(** ** Dates *)

Example strptime_padded (w : World) : strptime_ymd w "2024-01-31" = Some (mkDate 2024 1 31).
Proof. reflexivity. Qed.

Example strptime_unpadded (w : World) : strptime_ymd w "2024-1-5" = Some (mkDate 2024 1 5).
Proof. reflexivity. Qed.

Example strptime_leap_day (w : World) : strptime_ymd w "2024-02-29" = Some (mkDate 2024 2 29).
Proof. reflexivity. Qed.

Example strptime_no_leap_day (w : World) : strptime_ymd w "2023-02-29" = None.
Proof. reflexivity. Qed.

Example strptime_month_13 (w : World) : strptime_ymd w "2024-13-01" = None.
Proof. reflexivity. Qed.

Example strptime_trailing_text (w : World) : strptime_ymd w "2024-01-31T00:00:00" = None.
Proof. reflexivity. Qed.

Example strptime_words (w : World) : strptime_ymd w "last week" = None.
Proof. reflexivity. Qed.

(** A decimal digit that is not ASCII is read as its value. *)
Example strptime_arabic_indic :
  strptime_ymd w_last_week arabic_indic_15th = Some (mkDate 2024 1 15).
Proof. reflexivity. Qed.

(** The search is then filtered from that day on. *)
Example retrieve_news_arabic_indic :
  issued_filters
    (retrieve_news w_last_week "AI news" {[ "gte" := JStr arabic_indic_15th ]} None []).2 =
    [Some (mkFilter [mkCond "metadata.date" (mkRange (Some (mkDate 2024 1 15)) None)])].
Proof. reflexivity. Qed.

(** A digit that is not ASCII is no month, and no first digit of a day. *)
Example strptime_arabic_indic_month (w : World) :
  strptime_ymd w ("2024-" +:+ String "217" (String "165" EmptyString) +:+ "-01") = None.
Proof. reflexivity. Qed.

(** Joining a text joins its characters, not its bytes. *)
Example join_text :
  join " " (JStr ("a" +:+ String "217" (String "165" EmptyString) +:+ "b")) =
    Ok ("a " +:+ String "217" (String "165" EmptyString) +:+ " b").
Proof. reflexivity. Qed.

(** An ASCII digit is a decimal digit whatever the Unicode database says. *)
Lemma dec_digit_ascii (w : World) (a : ascii) (rest : string) :
  is_digit a = true → dec_digit w (String a rest) = Some (digit a, rest).
Proof. intros Ha. unfold dec_digit. by rewrite Ha. Qed.

(** What [strptime] returns is a date of the calendar. *)
Lemma strptime_ymd_valid (w : World) (s : string) (d : date) :
  strptime_ymd w s = Some d → valid_date d = true.
Proof.
  unfold strptime_ymd. intros H.
  destruct (parse_Y w s) as [[y s1]|]; simpl in H; [|done].
  destruct (expect_dash s1) as [s2|]; simpl in H; [|done].
  destruct (parse_m s2) as [[m s3]|]; simpl in H; [|done].
  destruct (expect_dash s3) as [s4|]; simpl in H; [|done].
  destruct (parse_d w s4) as [[dd s5]|]; simpl in H; [|done].
  destruct (bool_decide (s5 = EmptyString)); simpl in H; [|done].
  destruct (valid_date (mkDate y m dd)) eqn:Hv; [|done].
  by injection H as <-.
Qed.

(** ** Running the monad *)

Lemma bind_ok {A B} (m : M A) (f : A → M B) t a t' :
  m t = (Ok a, t') → bind m f t = f a t'.
Proof. unfold bind. by intros ->. Qed.

Lemma bind_raise {A B} (m : M A) (f : A → M B) t e t' :
  m t = (Raise e, t') → bind m f t = (Raise e, t').
Proof. unfold bind. by intros ->. Qed.

Lemma bind_lift {A B} (o : outcome A) (f : A → M B) t :
  bind (lift o) f t = match o with Ok a => f a t | Raise e => (Raise e, t) end.
Proof. by destruct o. Qed.

Lemma bind_ret {A B} (a : A) (f : A → M B) t : bind (ret a) f t = f a t.
Proof. done. Qed.

Lemma bind_emit {B} ev (f : unit → M B) t : bind (emit ev) f t = f tt (t ++ [ev]).
Proof. done. Qed.

Lemma silent_ret {A} (a : A) : silent (ret a).
Proof. by intros t. Qed.

Lemma silent_raise {A} e : silent (@raise A e).
Proof. by intros t. Qed.

Lemma silent_lift {A} (o : outcome A) : silent (lift o).
Proof. by intros t. Qed.

Lemma silent_bind {A B} (m : M A) (f : A → M B) :
  silent m → (∀ a, silent (f a)) → silent (bind m f).
Proof.
  intros Hm Hf t. unfold bind. specialize (Hm t).
  destruct (m t) as [[a|e] t1]; simpl in *; subst t1; [apply Hf|done].
Qed.

Lemma silent_try {A} (m : M A) handles (h : exn → M A) :
  silent m → (∀ e, silent (h e)) → silent (try_except m handles h).
Proof.
  intros Hm Hh t. unfold try_except. specialize (Hm t).
  destruct (m t) as [[a|e] t1]; simpl in *; subst t1; [done|].
  destruct (handles e); [apply Hh|done].
Qed.

Lemma silent_run {A} (m : M A) t : silent m → m t = ((m t).1, t).
Proof. intros Hm. specialize (Hm t). destruct (m t); simpl in *. by subst. Qed.

Ltac silence :=
  repeat first
    [ apply silent_ret | apply silent_raise | apply silent_lift
    | apply silent_bind; [|intros ?]
    | apply silent_try; [|intros ?]
    | match goal with |- silent (if ?b then _ else _) => destruct b end
    | match goal with |- silent (match ?o with _ => _ end) => destruct o end ].

Lemma getitem_role r c : getitem (msg_dict r c) "role" = Ok r.
Proof. unfold getitem, msg_dict. by rewrite lookup_insert_eq. Qed.

Lemma getitem_content r c : getitem (msg_dict r c) "content" = Ok c.
Proof.
  unfold getitem, msg_dict.
  rewrite lookup_insert_ne; [|done]. by rewrite lookup_singleton_eq.
Qed.

Lemma append_history_ok (transcript acc : list ChatMessage) t :
  append_history acc (to_dict <$> transcript) t = (Ok (acc ++ transcript), t).
Proof.
  revert acc. induction transcript as [|m tr IH]; intros acc; simpl.
  - by rewrite app_nil_r.
  - unfold to_dict at 1 2.
    rewrite bind_lift, getitem_role, bind_lift, getitem_content, IH.
    destruct m as [r c]; simpl. by rewrite <- app_assoc.
Qed.

Lemma bind_chat {B} w model msgs j (f : string → M B) t :
  bind (chat w model msgs j) f t =
    match chat_completions_create w model msgs j with
    | Ok c => f c (t ++ [EvChat model msgs j])
    | Raise e => (Raise e, (t ++ [EvChat model msgs j]))
    end.
Proof. unfold chat, bind, emit, lift. by destruct (chat_completions_create _ _ _ _). Qed.

Lemma bind_search {B} w qu k flt (f : list StoredDoc → M B) t :
  bind (search w qu k flt) f t =
    match similarity_search w qu k flt with
    | Ok docs => f docs (t ++ [EvSearch qu k flt])
    | Raise e => (Raise e, (t ++ [EvSearch qu k flt]))
    end.
Proof. unfold search, bind, emit, lift. by destruct (similarity_search _ _ _ _). Qed.

(** Runs [extract_queries_and_date_filters] on a well-formed transcript up
    to the answer [Hchat] of the model. *)
Ltac run_extraction Hchat :=
  unfold extract_queries_and_date_filters, extraction_request in *;
  rewrite (bind_ok _ _ _ _ _ (append_history_ok _ _ _));
  rewrite bind_chat; simpl app; rewrite Hchat.

Section Extraction.

Context (w : World).

(** C4: when the answer of the model to the extraction call is not valid
    JSON, [extract_queries_and_date_filters] returns the dictionary
    [{queries: [], date_filter: {}}] with the error marker and raises
    nothing; its only effect is the call to the model. *)
Theorem extract_fallback_on_invalid_json (transcript : list ChatMessage) (t : trace)
    (completion : string) :
  chat_completions_create w "gpt-4o" (extraction_request w transcript) true = Ok completion →
  json_loads w completion = None →
  extract_queries_and_date_filters w (to_dict <$> transcript) t =
    (Ok (mkExtracted (JArr []) ∅ (Some "JSONDecodeError")),
     (t ++ [EvChat "gpt-4o" (extraction_request w transcript) true])).
Proof.
  intros Hchat Hloads. run_extraction Hchat.
  unfold try_except, loads. rewrite Hloads. reflexivity.
Qed.

(** C9: the fallback covers decoding failures only.  When the answer of the
    model decodes to a JSON value that is not an object (an array, a string,
    a number, [true], [false], [null]), the [.get] call raises
    [AttributeError], which the [except json.JSONDecodeError] clause does
    not catch: the function raises instead of returning the fallback. *)
Theorem extract_raises_on_non_object (transcript : list ChatMessage) (t : trace)
    (completion : string) (v : json) :
  chat_completions_create w "gpt-4o" (extraction_request w transcript) true = Ok completion →
  json_loads w completion = Some v →
  (∀ kvs, v ≠ JObj kvs) →
  extract_queries_and_date_filters w (to_dict <$> transcript) t =
    (Raise (AttributeError (sq +:+ type_name v +:+ "' object has no attribute 'get'")),
     (t ++ [EvChat "gpt-4o" (extraction_request w transcript) true])).
Proof.
  intros Hchat Hloads Hobj. run_extraction Hchat.
  unfold try_except, loads. rewrite Hloads, bind_ret, bind_lift.
  destruct v; try reflexivity. by destruct (Hobj items).
Qed.

End Extraction.

Section Retrieval.

Context (w : World).

Lemma foldl_append {A B} (f : A → B) (l : list A) (acc : list B) :
  foldl (λ acc x, acc ++ [f x]) acc l = (acc ++ (f <$> l)).
Proof.
  revert acc. induction l as [|x l IH]; intros acc; simpl.
  - by rewrite app_nil_r.
  - rewrite IH. by rewrite <- app_assoc.
Qed.

(** [retrieve_news] in one equation: the two bounds are handled in turn,
    then exactly one search is made, with the filter [compile] gives, and
    its documents are turned into articles in order. *)
Lemma retrieve_news_run (qu : string) (df : gmap string json) (mk : option Z) (t : trace) :
  retrieve_news w qu df mk t =
    match bound_crash (df !! "gte") with
    | Some e => (Raise e, t)
    | None =>
        match bound_crash (df !! "lte") with
        | Some e => (Raise e, (t ++ invalid_print w "gte" df))
        | None =>
            let t' := (t ++ invalid_print w "gte" df ++ invalid_print w "lte" df
                         ++ [EvSearch qu (default 5 mk) (compile w df)]) in
            match similarity_search w qu (default 5 mk) (compile w df) with
            | Ok docs => (Ok (article_of <$> docs), t')
            | Raise e => (Raise e, t')
            end
        end
    end.
Proof.
  unfold retrieve_news, compile, invalid_print.
  case_bool_decide as Hsize.
  - destruct (df !! "gte") as [[| | | |s1| |]|]; destruct (df !! "lte") as [[| | | |s2| |]|];
      simpl; try reflexivity.
    all: unfold bind, try_except, lift, ret, emit, search, datetime_strptime; simpl.
    all: repeat match goal with |- context [strptime_ymd w ?s] =>
           destruct (strptime_ymd w s) end; simpl.
    all: rewrite ?app_nil_r; try reflexivity.
    all: destruct (similarity_search _ _ _ _); simpl.
    all: rewrite ?foldl_append, <- ?app_assoc; simpl; try reflexivity.
  - apply map_size_empty_inv in Hsize as ->.
    rewrite !lookup_empty; simpl.
    unfold bind, ret, search, emit, lift; simpl.
    destruct (similarity_search _ _ _ _); simpl.
    all: by rewrite ?foldl_append.
Qed.

Lemma retrieve_news_ok_inv qu df mk t arts t' :
  retrieve_news w qu df mk t = (Ok arts, t') →
  ∃ docs, similarity_search w qu (default 5 mk) (compile w df) = Ok docs
          ∧ arts = article_of <$> docs.
Proof.
  rewrite retrieve_news_run.
  destruct (bound_crash (df !! "gte")); [done|].
  destruct (bound_crash (df !! "lte")); [done|]. simpl.
  destruct (similarity_search _ _ _ _) as [docs|]; [|done].
  intros [= <- _]. by exists docs.
Qed.

Lemma issued_filters_app t1 t2 :
  issued_filters (t1 ++ t2) = (issued_filters t1 ++ issued_filters t2).
Proof. apply omap_app. Qed.






(** C5: as long as the store returns at most [k] documents when asked for
    [k], [retrieve_news] returns at most [max_results] articles, and at most
    5 when [max_results] is left out. *)
Theorem retrieve_news_at_most_k (qu : string) (df : gmap string json) (t : trace) :
  (∀ q' k f docs, 1 ≤ k → similarity_search w q' k f = Ok docs →
                  Z.of_nat (length docs) ≤ k) →
  (∀ k arts t', 1 ≤ k → retrieve_news w qu df (Some k) t = (Ok arts, t') →
                Z.of_nat (length arts) ≤ k) ∧
  (∀ arts t', retrieve_news w qu df None t = (Ok arts, t') →
              Z.of_nat (length arts) ≤ 5).
Proof.
  intros Hstore. split.
  - intros k arts t' Hk Hrun.
    apply retrieve_news_ok_inv in Hrun as (docs & Hdocs & ->).
    rewrite length_fmap. by eapply Hstore.
  - intros arts t' Hrun.
    apply retrieve_news_ok_inv in Hrun as (docs & Hdocs & ->).
    rewrite length_fmap. eapply Hstore; [|done]. done.
Qed.

(** C10: every article [retrieve_news] returns has a [url] and a [date]:
    the ones in the metadata of the stored document it comes from when the
    metadata has them, ["#"] and ["Unknown date"] otherwise. *)
Theorem articles_have_url_and_date (qu : string) (df : gmap string json)
    (mk : option Z) (t t' : trace) (arts : list (gmap string string)) :
  retrieve_news w qu df mk t = (Ok arts, t') →
  ∃ docs,
    similarity_search w qu (default 5 mk) (compile w df) = Ok docs ∧
    length arts = length docs ∧
    ∀ i art, arts !! i = Some art →
      ∃ doc, docs !! i = Some doc ∧
        art !! "url" = Some (match metadata doc !! "url" with
                             | Some u => u
                             | None => "#"
                             end) ∧
        art !! "date" = Some (match metadata doc !! "date" with
                              | Some d => d
                              | None => "Unknown date"
                              end).
Proof.
  intros Hrun. apply retrieve_news_ok_inv in Hrun as (docs & Hdocs & ->).
  exists docs. split; [done|]. split; [by rewrite length_fmap|].
  intros i art Hart. apply list_lookup_fmap_Some in Hart as (doc & -> & Hdoc).
  exists doc. split; [done|]. unfold article_of, article. split.
  - rewrite lookup_insert_ne; [|done]. by rewrite lookup_insert_eq.
  - rewrite lookup_insert_ne; [|done]. rewrite lookup_insert_ne; [|done].
    by rewrite lookup_singleton_eq.
Qed.

End Retrieval.

Section Generation.

Context (w : World).

Lemma append_assoc (a b c : string) : (a +:+ b) +:+ c = a +:+ (b +:+ c).
Proof.
  induction a as [|x a IH]; [reflexivity|].
  change (String x ((a +:+ b) +:+ c) = String x (a +:+ b +:+ c)). by rewrite IH.
Qed.

Lemma append_nil_r (a : string) : a +:+ EmptyString = a.
Proof.
  induction a as [|x a IH]; [reflexivity|].
  change (String x (a +:+ EmptyString) = String x a). by rewrite IH.
Qed.

Lemma getitem_title ti u d : getitem (article ti u d) "title" = Ok ti.
Proof. unfold getitem, article. by rewrite lookup_insert_eq. Qed.

Lemma getitem_url ti u d : getitem (article ti u d) "url" = Ok u.
Proof.
  unfold getitem, article. rewrite lookup_insert_ne; [|done].
  by rewrite lookup_insert_eq.
Qed.

(** The loop appends to [context] the rendering of the remaining documents,
    numbered from [i + 1], in their order. *)
Lemma context_loop_spec (docs : list NewsArticle) (i : nat) (context : string) (t : trace) :
  context_loop i context (to_article <$> docs) t =
    (Ok (context +:+
           foldr String.append EmptyString (imap (λ j, render_source (i + j)) docs)), t).
Proof.
  revert i context. induction docs as [|d docs IH]; intros i context; simpl.
  - by rewrite append_nil_r.
  - unfold to_article at 1 2.
    rewrite bind_lift, getitem_title, bind_lift, getitem_url, IH.
    f_equal. f_equal. rewrite append_assoc, Nat.add_0_r. f_equal.
    change (render_source i d +:+
              foldr String.append EmptyString (imap (λ j, render_source (S i + j)) docs) =
            render_source i d +:+
              foldr String.append EmptyString (imap ((λ j, render_source (i + j)) ∘ S) docs)).
    f_equal. f_equal. apply imap_ext. intros j x _. simpl. f_equal. lia.
Qed.

(** C6: the context block [generate_rag_response] puts in the prompt lists
    the documents in input order, the i-th one (from 1) as
    [Source i: title], then [URL: url]. *)
Theorem context_block_in_input_order (messages : list (gmap string string))
    (docs : list NewsArticle) (t : trace) (last_message : string) :
  last_user_message messages = Ok last_message →
  let context :=
    foldr String.append EmptyString
      (imap (λ i d, "Source " +:+ pretty (i + 1)%nat +:+ ": " +:+ title d +:+ nl
                      +:+ "URL: " +:+ url d +:+ nl +:+ nl) docs) in
  let rag_messages :=
    [mkMsg "system" rag_instructions;
     mkMsg "user" (rag_user_prompt context last_message)] in
  generate_rag_response w messages (to_article <$> docs) t =
    (chat_completions_create w "gpt-4o" rag_messages false,
     t ++ [EvChat "gpt-4o" rag_messages false]).
Proof.
  intros Hlast context rag_messages. unfold generate_rag_response.
  rewrite bind_lift, Hlast.
  rewrite (bind_ok _ _ _ _ _ (context_loop_spec _ _ _ _)).
  rewrite bind_chat. simpl.
  by destruct (chat_completions_create _ _ _ _).
Qed.

End Generation.

Section ExtractedBounds.

Context (w : World).

Lemma append_history_trace (messages : list (gmap string string)) acc t :
  (append_history acc messages t).2 = t.
Proof.
  revert acc. induction messages as [|m ms IH]; intros acc; simpl; [done|].
  rewrite bind_lift. destruct (getitem m "role"); [|done].
  rewrite bind_lift. destruct (getitem m "content"); [|done]. apply IH.
Qed.

(** C2, as the code has it: a bound is in the [date_filter] of the result
    only if the answer of the model decodes to an object whose
    [date_filter] member is an object with that key, and the value is that
    member's, copied as it is: it is not parsed as a date here. *)
Theorem extracted_bounds_are_copied (messages : list (gmap string string))
    (t t' : trace) (r : Extracted) (b : string) (v : json) :
  extract_queries_and_date_filters w messages t = (Ok r, t') →
  b = "gte" ∨ b = "lte" →
  date_filter r !! b = Some v →
  ∃ request completion kvs df,
    chat_completions_create w "gpt-4o" request true = Ok completion ∧
    json_loads w completion = Some (JObj kvs) ∧
    assoc "date_filter" kvs = Some (JObj df) ∧
    assoc b df = Some v.
Proof.
  unfold extract_queries_and_date_filters.
  unfold bind at 1.
  destruct (append_history _ messages t) as [[request|e] t1]; [|done].
  rewrite bind_chat.
  destruct (chat_completions_create w "gpt-4o" request true) as [completion|] eqn:Hchat;
    [|done].
  unfold try_except, loads.
  destruct (json_loads w completion) as [data|] eqn:Hloads.
  2:{ simpl. intros [= <- _] _. simpl. by rewrite lookup_empty. }
  rewrite bind_ret, bind_lift.
  destruct data as [| | | | | |kvs]; try done.
  simpl py_get. cbv beta iota. rewrite bind_lift. simpl py_contains. cbv beta iota.
  intros Hrun Hb Hv. exists request, completion, kvs.
  destruct (assoc "date_filter" kvs) as [dfv|] eqn:Hdf.
  2:{ rewrite bool_decide_eq_false_2 in Hrun by (by intros [??]).
      simpl in Hrun. injection Hrun as <- _. simpl in Hv. by rewrite lookup_empty in Hv. }
  rewrite bool_decide_eq_true_2 in Hrun by done.
  rewrite bind_lift in Hrun. simpl py_getitem in Hrun. rewrite Hdf in Hrun.
  rewrite bind_lift in Hrun.
  unfold bind, lift, ret in Hrun.
  destruct dfv as [| | | |s|l|df]; try done; simpl in Hrun.
  - (* a string *)
    destruct (is_substring "gte" s); [done|].
    destruct (is_substring "lte" s); [done|].
    injection Hrun as <- _. simpl in Hv. by rewrite lookup_empty in Hv.
  - (* a list *)
    destruct (existsb (is_str "gte") l); [done|].
    destruct (existsb (is_str "lte") l); [done|].
    injection Hrun as <- _. simpl in Hv. by rewrite lookup_empty in Hv.
  - (* an object *)
    exists df. do 3 (split; [done|]).
    destruct (assoc "gte" df) as [g|] eqn:Hg, (assoc "lte" df) as [l|] eqn:Hl;
      repeat (first [rewrite bool_decide_eq_true_2 in Hrun by done
                    |rewrite bool_decide_eq_false_2 in Hrun by (by intros [??])]);
      simpl in Hrun; injection Hrun as <- _;
      unfold set_date_filter in Hv; simpl in Hv;
      destruct Hb as [-> | ->]; by simplify_map_eq.
Qed.

End ExtractedBounds.

(** C2 as stated fails: the model answers with [gte] set to ["last week"],
    the result carries it, and it is no date. *)
Lemma extraction_does_not_validate_dates : ¬ extraction_validates_dates.
Proof.
  set (w0 := world reply_last_week (Some parsed_last_week) (Ok stored_docs) None).
  intros H.
  assert (Hrun : extract_queries_and_date_filters w0
                   [msg_dict "user" "AI news since last week"] [] =
                 (Ok (mkExtracted (JArr [JStr "AI news"])
                        {[ "gte" := JStr "last week" ]} None),
                  [EvChat "gpt-4o"
                     (extraction_request w0
                        [mkMsg "user" "AI news since last week"]) true]))
    by (vm_compute; reflexivity).
  destruct (H _ _ _ _ _ Hrun "gte" (JStr "last week")) as [d Hd].
  - by left.
  - by vm_compute.
  - vm_compute in Hd. discriminate Hd.
Qed.


Section Http.

Context (w : World).

Lemma route_rejected {B R} (handler : B → string → M R) (req : Request B) (t : trace) :
  Some (get_api_key_header req) ≠ getenv_APP_API_KEY w →
  route w handler req t = (HttpError 401 "Invalid API Key", t).
Proof.
  intros Hkey. unfold route, get_api_key, bind.
  by rewrite bool_decide_eq_true_2.
Qed.

Lemma route_accepted {B R} (handler : B → string → M R) (req : Request B) (t : trace) :
  Some (get_api_key_header req) = getenv_APP_API_KEY w →
  route w handler req t =
    match handler (body req) (get_api_key_header req) t with
    | (Ok r, t') => (Http200 r, t')
    | (Raise (HTTPException status detail), t') => (HttpError status detail, t')
    | (Raise _, t') => (HttpError 500 "Internal Server Error", t')
    end.
Proof.
  intros Hkey. unfold route, get_api_key, bind.
  rewrite bool_decide_eq_false_2; [done|]. by intros ?.
Qed.

(** C7, as the code has it: the value of the [x-api-key] header, the empty
    string when the header is missing, is compared with the configured key;
    when they differ the request is answered 401 by the dependency, the
    handler does not run and nothing is logged: the trace is unchanged.  A
    request without the header is thus rejected unless the configured key is
    the empty string. *)
Theorem wrong_key_is_rejected (t : trace) :
  (∀ req : Request RetrievalRequest,
     Some (default EmptyString (headers req !! "x-api-key")) ≠ getenv_APP_API_KEY w →
     post_api_retrieval w req t = (HttpError 401 "Invalid API Key", t)) ∧
  (∀ req : Request CompletionRequest,
     Some (default EmptyString (headers req !! "x-api-key")) ≠ getenv_APP_API_KEY w →
     post_api_completion w req t = (HttpError 401 "Invalid API Key", t)) ∧
  (∀ req : Request RetrievalRequest,
     headers req !! "x-api-key" = None →
     getenv_APP_API_KEY w ≠ Some EmptyString →
     post_api_retrieval w req t = (HttpError 401 "Invalid API Key", t)) ∧
  (∀ req : Request CompletionRequest,
     headers req !! "x-api-key" = None →
     getenv_APP_API_KEY w ≠ Some EmptyString →
     post_api_completion w req t = (HttpError 401 "Invalid API Key", t)).
Proof.
  repeat split; intros req.
  - apply route_rejected.
  - apply route_rejected.
  - intros Hnone Hkey. apply route_rejected.
    unfold get_api_key_header. rewrite Hnone. simpl. congruence.
  - intros Hnone Hkey. apply route_rejected.
    unfold get_api_key_header. rewrite Hnone. simpl. congruence.
Qed.

Lemma retrieve_news_search_raises qu df mk t e :
  bound_crash (df !! "gte") = None → bound_crash (df !! "lte") = None →
  similarity_search w qu (default 5 mk) (compile w df) = Raise e →
  retrieve_news w qu df mk t =
    (Raise e, t ++ invalid_print w "gte" df ++ invalid_print w "lte" df
                ++ [EvSearch qu (default 5 mk) (compile w df)]).
Proof.
  intros Hg Hl Hsearch. by rewrite retrieve_news_run, Hg, Hl; simpl; rewrite Hsearch.
Qed.

(** C8: when the pipeline of a handler raises an exception [e], the handler
    appends to the log a record with the text of the request as question and
    an answer that starts with [ERROR: ] and holds [str(e)] and the stack
    trace, then answers 500 with [str(e)] and the stack trace as detail.  An
    exception of the vector search is such a case: [retrieve_news] does not
    turn it into a result, the pipeline raises it. *)
Theorem pipeline_failure_is_500 (t : trace) (e : exn) :
  (∀ (req : Request RetrievalRequest) t',
     Some (get_api_key_header req) = getenv_APP_API_KEY w →
     get_retrieval_try w (body req) t = (Raise e, t') →
     post_api_retrieval w req t =
       (HttpError 500 (str e +:+ nl +:+ "Stack Trace:" +:+ nl +:+ format_exc w e),
        t' ++ [EvLog (chat_log w)
                 (mkLog (now_stamp w) (query (body req))
                    ("ERROR: " +:+ str e +:+ nl +:+ "Stack Trace:" +:+ nl
                       +:+ format_exc w e))])) ∧
  (∀ (req : Request CompletionRequest) t',
     Some (get_api_key_header req) = getenv_APP_API_KEY w →
     get_completion_try w (body req) t = (Raise e, t') →
     post_api_completion w req t =
       (HttpError 500 (str e +:+ nl +:+ "Stack Trace:" +:+ nl +:+ format_exc w e),
        t' ++ [EvLog (chat_log w)
                 (mkLog (now_stamp w) (str_messages w (messages (body req)))
                    ("ERROR: " +:+ str e +:+ nl +:+ "Stack Trace:" +:+ nl
                       +:+ format_exc w e))])) ∧
  (∀ (request : RetrievalRequest) ex t1,
     extract_queries_and_date_filters w [msg_dict "user" (query request)] t = (Ok ex, t1) →
     bound_crash (date_filter ex !! "gte") = None →
     bound_crash (date_filter ex !! "lte") = None →
     similarity_search w (query request) 5 (compile w (date_filter ex)) = Raise e →
     (get_retrieval_try w request t).1 = Raise e) ∧
  (∀ (request : CompletionRequest) last_message ex t1,
     last_user_message (messages request) = Ok last_message →
     extract_queries_and_date_filters w (messages request) t = (Ok ex, t1) →
     bound_crash (date_filter ex !! "gte") = None →
     bound_crash (date_filter ex !! "lte") = None →
     similarity_search w last_message 5 (compile w (date_filter ex)) = Raise e →
     (get_completion_try w request t).1 = Raise e).
Proof.
  split; [|split; [|split]].
  - intros req t' Hkey Hrun. unfold post_api_retrieval.
    rewrite route_accepted by done.
    unfold get_retrieval, try_except. by rewrite Hrun.
  - intros req t' Hkey Hrun. unfold post_api_completion.
    rewrite route_accepted by done.
    unfold get_completion, try_except. by rewrite Hrun.
  - intros request ex t1 Hex Hg Hl Hsearch. unfold get_retrieval_try.
    rewrite (bind_ok _ _ _ _ _ Hex).
    by rewrite (bind_raise _ _ _ _ _ (retrieve_news_search_raises _ _ None _ _ Hg Hl Hsearch)).
  - intros request last_message ex t1 Hlast Hex Hg Hl Hsearch. unfold get_completion_try.
    rewrite bind_lift, Hlast, (bind_ok _ _ _ _ _ Hex).
    by rewrite (bind_raise _ _ _ _ _ (retrieve_news_search_raises _ _ None _ _ Hg Hl Hsearch)).
Qed.

End Http.

Section EntryPoints.

Context (w : World).

Lemma issued_queries_app t1 t2 :
  issued_queries (t1 ++ t2) = issued_queries t1 ++ issued_queries t2.
Proof. apply omap_app. Qed.

Lemma issued_queries_invalid_print b df : issued_queries (invalid_print w b df) = [].
Proof. unfold invalid_print. by repeat case_match. Qed.

Lemma silent_context_loop news i context : silent (context_loop i context news).
Proof.
  revert i context. induction news as [|n news IH]; intros i context; simpl; silence.
  apply IH.
Qed.

Lemma silent_append_history msgs acc : silent (append_history acc msgs).
Proof.
  revert acc. induction msgs as [|m msgs IH]; intros acc; simpl; silence. apply IH.
Qed.

(** The calls to the model are the only effects of extraction and of
    generation: neither makes a search. *)
Lemma generate_issues_no_query msgs news t :
  issued_queries (generate_rag_response w msgs news t).2 = issued_queries t.
Proof.
  unfold generate_rag_response. rewrite bind_lift.
  destruct (last_user_message msgs); [|done].
  unfold bind at 1. rewrite (silent_run _ t (silent_context_loop _ _ _)).
  destruct (context_loop _ _ _ _).1; [|done].
  rewrite bind_chat.
  destruct (chat_completions_create _ _ _ _); simpl;
    by rewrite issued_queries_app, app_nil_r.
Qed.

Lemma extract_issues_no_query msgs t :
  issued_queries (extract_queries_and_date_filters w msgs t).2 = issued_queries t.
Proof.
  unfold extract_queries_and_date_filters. unfold bind at 1.
  rewrite (silent_run _ t (silent_append_history _ _)).
  destruct (append_history _ _ _).1 as [request|]; [|done].
  rewrite bind_chat.
  destruct (chat_completions_create _ _ _ _) as [completion|]; simpl;
    [|by rewrite issued_queries_app, app_nil_r].
  match goal with |- context [try_except ?m ?c ?h] =>
    assert (silent (try_except m c h)) as Hs end.
  { unfold loads. silence. }
  rewrite Hs. by rewrite issued_queries_app, app_nil_r.
Qed.

Lemma retrieve_news_issues_query qu df mk t :
  issued_queries (retrieve_news w qu df mk t).2 = issued_queries t ∨
  issued_queries (retrieve_news w qu df mk t).2 = issued_queries t ++ [qu].
Proof.
  rewrite retrieve_news_run.
  destruct (bound_crash (df !! "gte")); [by left|].
  destruct (bound_crash (df !! "lte")).
  - left. simpl. by rewrite issued_queries_app, issued_queries_invalid_print, app_nil_r.
  - right. destruct (similarity_search _ _ _ _); simpl.
    all: by rewrite !issued_queries_app, !issued_queries_invalid_print.
Qed.

(** X24: whatever the model extracts, any search [/api/completion] makes is
    for the last user message. *)
Lemma completion_searches_last_message (request : CompletionRequest) (t : trace) :
  ∃ qs,
    issued_queries (get_completion_try w request t).2 = issued_queries t ++ qs ∧
    ∀ qu, qu ∈ qs → last_user_message (messages request) = Ok qu.
Proof.
  unfold get_completion_try. rewrite bind_lift.
  destruct (last_user_message (messages request)) as [last_message|].
  2:{ exists []. rewrite app_nil_r. split; [done|]. by intros ? ?%elem_of_nil. }
  unfold bind at 1.
  pose proof (extract_issues_no_query (messages request) t) as Hex.
  destruct (extract_queries_and_date_filters _ _ _) as [[ex|e] t1]; simpl in Hex.
  2:{ exists []. rewrite app_nil_r. split; [done|]. by intros ? ?%elem_of_nil. }
  unfold bind at 1.
  pose proof (retrieve_news_issues_query last_message (date_filter ex) None t1) as Hre.
  assert (∃ qs, issued_queries (retrieve_news w last_message (date_filter ex) None t1).2
                = issued_queries t ++ qs ∧ ∀ qu, qu ∈ qs → Ok last_message = Ok qu)
    as (qs & Hqs & Hlast).
  { destruct Hre as [-> | ->]; rewrite Hex.
    - exists []. rewrite app_nil_r. split; [done|]. by intros ? ?%elem_of_nil.
    - exists [last_message]. split; [done|]. by intros ? ->%list_elem_of_singleton. }
  exists qs. split; [|done]. clear Hre.
  destruct (retrieve_news _ _ _ _ _) as [[arts|e] t2]; simpl in Hqs; [|done].
  unfold bind at 1.
  pose proof (generate_issues_no_query (messages request) arts t2) as Hge.
  destruct (generate_rag_response _ _ _ _) as [[?|?] ?]; simpl in *; congruence.
Qed.

Lemma str_items_strs (qs : list string) i : str_items i (JStr <$> qs) = Ok qs.
Proof.
  revert i. induction qs as [|s qs IH]; intros i; simpl; [done|]. by rewrite IH.
Qed.

Lemma respond_messages (history : list (string * string)) (acc : list ChatMessage) :
  foldl (λ messages h, messages ++ [msg_dict "user" h.1; msg_dict "assistant" h.2])
        (to_dict <$> acc) history =
  to_dict <$> (acc ++ (h ← history; [mkMsg "user" h.1; mkMsg "assistant" h.2])).
Proof.
  revert acc. induction history as [|h history IH]; intros acc; simpl.
  - by rewrite app_nil_r.
  - replace ((to_dict <$> acc) ++ [msg_dict "user" h.1; msg_dict "assistant" h.2])
      with (to_dict <$> (acc ++ [mkMsg "user" h.1; mkMsg "assistant" h.2]))
      by (by rewrite fmap_app).
    rewrite IH. by rewrite <- app_assoc.
Qed.

Lemma respond_last_user_message history message :
  last_user_message (to_dict <$> transcript_of history message) = Ok message.
Proof.
  unfold last_user_message, transcript_of.
  rewrite fmap_app, reverse_app. simpl.
  change (to_dict (mkMsg "user" message)) with (msg_dict "user" message).
  rewrite getitem_role. rewrite bool_decide_eq_true_2 by done.
  apply getitem_content.
Qed.

(** X25: with a list of query strings extracted (and no date filter),
    [respond] searches for the strings joined by a space, and for the
    current message, the last user message of its transcript, when the list
    is empty. *)
Lemma respond_searches_joined_queries (message : string) (history : list (string * string))
    (t : trace) (completion : string) (kvs : list (string * json)) (qs : list string) :
  chat_completions_create w "gpt-4o"
    (extraction_request w (transcript_of history message)) true = Ok completion →
  json_loads w completion = Some (JObj kvs) →
  assoc "queries" kvs = Some (JArr (JStr <$> qs)) →
  assoc "date_filter" kvs = None →
  issued_queries (respond w message history t).2 =
    issued_queries t ++ [match qs with [] => message | _ => String.concat " " qs end].
Proof.
  intros Hchat Hloads Hqs Hdf. unfold respond.
  change (@nil (gmap string string)) with (to_dict <$> @nil ChatMessage).
  rewrite respond_messages. simpl app.
  change [msg_dict "user" message] with (to_dict <$> [mkMsg "user" message]).
  rewrite <- fmap_app. fold (transcript_of history message).
  unfold bind at 1.
  assert (extract_queries_and_date_filters w (to_dict <$> transcript_of history message) t =
          (Ok (mkExtracted (JArr (JStr <$> qs)) ∅ None),
           t ++ [EvChat "gpt-4o" (extraction_request w (transcript_of history message)) true]))
    as ->.
  { run_extraction Hchat. unfold try_except, loads. rewrite Hloads, bind_ret, bind_lift.
    simpl. rewrite Hqs, bind_lift. simpl. rewrite Hdf.
    by rewrite bool_decide_eq_false_2 by (by intros [??]). }
  simpl queries. simpl date_filter.
  set (query := match qs with [] => message | _ => String.concat " " qs end).
  assert ((if truthy (JArr (JStr <$> qs)) then lift (join " " (JArr (JStr <$> qs)))
           else ret message) = ret query) as ->.
  { subst query. destruct qs as [|s qs]; [done|].
    simpl truthy. cbv beta iota. unfold join. by rewrite str_items_strs. }
  rewrite bind_ret, bind_emit. unfold bind at 1.
  pose proof (retrieve_news_run w query ∅ None
                ((t ++ [EvChat "gpt-4o" (extraction_request w (transcript_of history message)) true])
                   ++ [EvPrint (PDateFilter ∅)])) as Hrun.
  unfold invalid_print, compile in Hrun. rewrite !lookup_empty in Hrun.
  simpl in Hrun. rewrite Hrun. clear Hrun.
  destruct (similarity_search _ _ _ _) as [docs|].
  - cbv beta iota. rewrite bind_emit. unfold bind at 1.
    match goal with |- context [generate_rag_response w ?m ?n ?t0] =>
      pose proof (generate_issues_no_query m n t0) as Hge;
      destruct (generate_rag_response w m n t0) as [[?|?] ?] end;
      simpl in *; rewrite Hge; by rewrite !issued_queries_app, !app_nil_r.
  - simpl. by rewrite !issued_queries_app, !app_nil_r.
Qed.

End EntryPoints.

(** ** The program run on concrete inputs *)

(** C7 as stated fails: with the empty string as configured key, a request
    without the header is served. *)
Lemma missing_header_accepted_with_empty_key : ¬ rejects_missing_or_wrong_key.
Proof.
  intros H. destruct (H w_empty_key []) as [Hr _].
  specialize (Hr (without_key (mkRetrievalRequest "AI news")) (or_introl eq_refl)).
  vm_compute in Hr. discriminate Hr.
Qed.

(** C1 fails on [/api/completion]: the model extracts two queries, [respond]
    searches for them joined by a space, the handler searches for the last
    user message. *)
Theorem completion_ignores_extracted_queries :
  let request := mkCompletionRequest [msg_dict "user" "What changed this week?"] in
  (extract_queries_and_date_filters w_two_queries (messages request) []).1 =
    Ok (mkExtracted (JArr [JStr "AI regulation"; JStr "chip exports"]) ∅ None) ∧
  join " " (JArr [JStr "AI regulation"; JStr "chip exports"]) =
    Ok "AI regulation chip exports" ∧
  issued_queries (get_completion w_two_queries request "s3cret" []).2 =
    ["What changed this week?"] ∧
  issued_queries (respond w_two_queries "What changed this week?" [] []).2 =
    ["AI regulation chip exports"].
Proof. vm_compute. repeat split. Qed.

(** The store of [world] honours [k]. *)
Lemma world_store_honours_k reply parsed docs secret :
  ∀ q' k f docs', 1 ≤ k →
    similarity_search (world reply parsed (Ok docs) secret) q' k f = Ok docs' →
    Z.of_nat (length docs') ≤ k.
Proof. simpl. intros _ k _ docs' Hk [= <-]. rewrite length_take. lia. Qed.

(** The model answers with [gte] set to ["last week"]: the result carries it,
    copied from the answer. *)
Lemma extracted_bounds_are_copied_witness :
  ∃ request completion kvs df,
    chat_completions_create w_last_week "gpt-4o" request true = Ok completion ∧
    json_loads w_last_week completion = Some (JObj kvs) ∧
    assoc "date_filter" kvs = Some (JObj df) ∧
    assoc "gte" df = Some (JStr "last week").
Proof.
  apply (extracted_bounds_are_copied w_last_week
           [msg_dict "user" "AI news since last week"] []
           [EvChat "gpt-4o"
              (extraction_request w_last_week [mkMsg "user" "AI news since last week"]) true]
           (mkExtracted (JArr [JStr "AI news"]) {[ "gte" := JStr "last week" ]} None)).
  - vm_compute; reflexivity.
  - left; reflexivity.
  - vm_compute; reflexivity.
Defined.


(** The model answers in prose. *)
Lemma extract_fallback_on_invalid_json_witness :
  extract_queries_and_date_filters w_not_json [msg_dict "user" "hello"] [] =
    (Ok (mkExtracted (JArr []) ∅ (Some "JSONDecodeError")),
     [EvChat "gpt-4o" (extraction_request w_not_json [mkMsg "user" "hello"]) true]).
Proof.
  apply (extract_fallback_on_invalid_json w_not_json [mkMsg "user" "hello"] []
           "Sorry, I cannot help with that."); vm_compute; reflexivity.
Defined.

(** A store of two documents asked for one, and for the default five. *)
Lemma retrieve_news_at_most_k_witness :
  Z.of_nat (length [article_of (mkDoc "AI act passed"
                      {[ "url" := "https://news.example/ai-act"; "date" := "2024-03-01" ]})]) ≤ 1 ∧
  Z.of_nat (length (article_of <$> stored_docs)) ≤ 5.
Proof.
  split.
  - apply (proj1 (retrieve_news_at_most_k w_last_week "AI news" ∅ []
                    (world_store_honours_k _ _ _ _))
             1 _ [EvSearch "AI news" 1 None]); [lia | vm_compute; reflexivity].
  - apply (proj2 (retrieve_news_at_most_k w_last_week "AI news" ∅ []
                    (world_store_honours_k _ _ _ _))
             _ [EvSearch "AI news" 5 None]); vm_compute; reflexivity.
Defined.

(** The context block for two documents. *)
Lemma context_block_in_input_order_witness :
  let docs := [mkNews "AI act passed" "https://news.example/ai-act" "2024-03-01";
               mkNews "Chip export rules" "#" "Unknown date"] in
  let context :=
    "Source 1: AI act passed" +:+ nl +:+ "URL: https://news.example/ai-act" +:+ nl +:+ nl
      +:+ "Source 2: Chip export rules" +:+ nl +:+ "URL: #" +:+ nl +:+ nl in
  let rag_messages :=
    [mkMsg "system" rag_instructions;
     mkMsg "user" (rag_user_prompt context "What is new?")] in
  generate_rag_response w_last_week [msg_dict "user" "What is new?"]
      (to_article <$> docs) [] =
    (Ok "Nothing new. [Source 1]", [EvChat "gpt-4o" rag_messages false]).
Proof.
  apply (context_block_in_input_order w_last_week [msg_dict "user" "What is new?"]
           [mkNews "AI act passed" "https://news.example/ai-act" "2024-03-01";
            mkNews "Chip export rules" "#" "Unknown date"] [] "What is new?").
  vm_compute; reflexivity.
Defined.

(** A wrong key on one route, no key on the other. *)
Lemma wrong_key_is_rejected_witness :
  post_api_retrieval w_last_week (with_key "guess" (mkRetrievalRequest "AI news")) [] =
    (HttpError 401 "Invalid API Key", []) ∧
  post_api_completion w_last_week
      (without_key (mkCompletionRequest [msg_dict "user" "AI news"])) [] =
    (HttpError 401 "Invalid API Key", []).
Proof.
  split.
  - apply (proj1 (wrong_key_is_rejected w_last_week [])).
    vm_compute. discriminate.
  - apply (proj2 (proj2 (proj2 (wrong_key_is_rejected w_last_week [])))).
    + vm_compute; reflexivity.
    + vm_compute. discriminate.
Defined.

(** The store is down: the request is answered 500 after the log record is
    written, and the pipeline raised the exception of the store. *)
Lemma pipeline_failure_is_500_witness :
  let text := "connection refused" +:+ nl +:+ "Stack Trace:" +:+ nl
                +:+ "Traceback (most recent call last): connection refused" in
  post_api_retrieval w_store_down (with_key "s3cret" (mkRetrievalRequest "AI news")) [] =
    (HttpError 500 text,
     [EvChat "gpt-4o" (extraction_request w_store_down [mkMsg "user" "AI news"]) true;
      EvSearch "AI news" 5 None;
      EvLog "logs/2024-06-01_chat_log.txt"
        (mkLog "2024-06-01 12:00:00" "AI news" ("ERROR: " +:+ text))]) ∧
  (get_retrieval_try w_store_down (mkRetrievalRequest "AI news") []).1 =
    Raise (RemoteError "connection refused").
Proof.
  split.
  - apply (proj1 (pipeline_failure_is_500 w_store_down [] (RemoteError "connection refused"))
             (with_key "s3cret" (mkRetrievalRequest "AI news"))
             [EvChat "gpt-4o" (extraction_request w_store_down [mkMsg "user" "AI news"]) true;
              EvSearch "AI news" 5 None]);
      vm_compute; reflexivity.
  - apply (proj1 (proj2 (proj2
             (pipeline_failure_is_500 w_store_down [] (RemoteError "connection refused"))))
             (mkRetrievalRequest "AI news") (mkExtracted (JArr []) ∅ None)
             [EvChat "gpt-4o" (extraction_request w_store_down [mkMsg "user" "AI news"]) true]);
      vm_compute; reflexivity.
Defined.

(** The model answers with an empty JSON array. *)
Lemma extract_raises_on_non_object_witness :
  extract_queries_and_date_filters w_array [msg_dict "user" "hello"] [] =
    (Raise (AttributeError "'list' object has no attribute 'get'"),
     [EvChat "gpt-4o" (extraction_request w_array [mkMsg "user" "hello"]) true]).
Proof.
  apply (extract_raises_on_non_object w_array [mkMsg "user" "hello"] [] "[]" (JArr []));
    [vm_compute; reflexivity | vm_compute; reflexivity | discriminate].
Defined.

(** The two stored documents, one with and one without metadata. *)
Lemma articles_have_url_and_date_witness :
  ∃ docs,
    similarity_search w_last_week "AI news" 5 None = Ok docs ∧
    length (article_of <$> stored_docs) = length docs ∧
    ∀ i art, (article_of <$> stored_docs) !! i = Some art →
      ∃ doc, docs !! i = Some doc ∧
        art !! "url" = Some (match metadata doc !! "url" with
                             | Some u => u
                             | None => "#"
                             end) ∧
        art !! "date" = Some (match metadata doc !! "date" with
                              | Some d => d
                              | None => "Unknown date"
                              end).
Proof.
  apply (articles_have_url_and_date w_last_week "AI news" ∅ None []
           [EvSearch "AI news" 5 None]).
  vm_compute; reflexivity.
Defined.

(** ** Further properties of [extract_queries_and_date_filters] *)

Section ExtractionMore.

Context (w : World).

(** X1: on a transcript whose messages have a role and a content, extraction
    makes exactly one call to the model, whatever the model answers: to
    [gpt-4o], in JSON mode, with the system prompt first and then the
    transcript, message by message, in its order. *)
Theorem extract_sends_transcript_in_order (transcript : list ChatMessage) (t : trace) :
  (extract_queries_and_date_filters w (to_dict <$> transcript) t).2 =
    t ++ [EvChat "gpt-4o"
            (mkMsg "system" (extraction_instructions +:+ "Date now: " +:+ datetime_now w)
               :: transcript) true].
Proof.
  unfold extract_queries_and_date_filters.
  rewrite (bind_ok _ _ _ _ _ (append_history_ok _ _ _)), bind_chat. simpl app.
  destruct (chat_completions_create _ _ _ _) as [completion|]; [|done].
  match goal with |- context [try_except ?m ?c ?h] =>
    assert (silent (try_except m c h)) as Hs end.
  { unfold loads. silence. }
  by rewrite Hs.
Qed.

Lemma append_history_ill (messages : list (gmap string string)) acc t :
  Exists ill_formed messages →
  ∃ key, (key = "role" ∨ key = "content") ∧
    append_history acc messages t = (Raise (KeyError (sq +:+ key +:+ sq)), t).
Proof.
  revert acc. induction messages as [|m ms IH]; intros acc Hill.
  { by apply Exists_nil in Hill. }
  simpl. rewrite bind_lift. unfold getitem at 1.
  destruct (m !! "role") as [r|] eqn:Hr; [|exists "role"; by split; [left|]].
  rewrite bind_lift. unfold getitem at 1.
  destruct (m !! "content") as [c|] eqn:Hc; [|exists "content"; by split; [right|]].
  apply IH. apply Exists_cons in Hill as [[Hm|Hm]|Hill]; [congruence..|done].
Qed.

(** X2: when a message of the transcript lacks the [role] or the [content]
    key, extraction raises [KeyError] for that key while it copies the
    transcript: the model is not called. *)
Theorem extract_needs_role_and_content (messages : list (gmap string string)) (t : trace) :
  Exists ill_formed messages →
  ∃ key, (key = "role" ∨ key = "content") ∧
    extract_queries_and_date_filters w messages t =
      (Raise (KeyError (sq +:+ key +:+ sq)), t).
Proof.
  intros Hill. unfold extract_queries_and_date_filters.
  destruct (append_history_ill messages
              [mkMsg "system" (extraction_instructions +:+ "Date now: " +:+ datetime_now w)]
              t Hill) as (key & Hkey & Hrun).
  exists key. split; [done|]. by rewrite (bind_raise _ _ _ _ _ Hrun).
Qed.

(** X3: an exception of the call to the model leaves extraction as it is:
    the call stands before the [try], so even a [JSONDecodeError] raised by
    the client is not turned into the fallback. *)
Theorem extract_model_failure_propagates (transcript : list ChatMessage) (t : trace) (e : exn) :
  chat_completions_create w "gpt-4o" (extraction_request w transcript) true = Raise e →
  extract_queries_and_date_filters w (to_dict <$> transcript) t =
    (Raise e, t ++ [EvChat "gpt-4o" (extraction_request w transcript) true]).
Proof. intros Hchat. by run_extraction Hchat. Qed.

(** X4: an answer that decodes to an object without a [date_filter] member
    gives the [queries] member as it is, the empty list when there is none,
    an empty [date_filter], and no error marker. *)
Theorem extract_defaults_for_missing_keys (transcript : list ChatMessage) (t : trace)
    (completion : string) (kvs : list (string * json)) :
  chat_completions_create w "gpt-4o" (extraction_request w transcript) true = Ok completion →
  json_loads w completion = Some (JObj kvs) →
  assoc "date_filter" kvs = None →
  extract_queries_and_date_filters w (to_dict <$> transcript) t =
    (Ok (mkExtracted (match assoc "queries" kvs with Some v => v | None => JArr [] end)
           ∅ None),
     t ++ [EvChat "gpt-4o" (extraction_request w transcript) true]).
Proof.
  intros Hchat Hloads Hdf. run_extraction Hchat.
  unfold try_except, loads. rewrite Hloads, bind_ret, bind_lift. simpl.
  rewrite bind_lift. simpl. rewrite Hdf.
  rewrite bool_decide_eq_false_2 by (by intros [??]).
  by destruct (assoc "queries" kvs).
Qed.

(** X5: when the [date_filter] member of the answer is [null], a number or a
    boolean, the test ["gte" in date_filter] raises [TypeError], which the
    [except json.JSONDecodeError] clause lets through. *)
Theorem extract_null_date_filter_raises (transcript : list ChatMessage) (t : trace)
    (completion : string) (kvs : list (string * json)) (v : json) :
  chat_completions_create w "gpt-4o" (extraction_request w transcript) true = Ok completion →
  json_loads w completion = Some (JObj kvs) →
  assoc "date_filter" kvs = Some v →
  ¬ iterable v →
  extract_queries_and_date_filters w (to_dict <$> transcript) t =
    (Raise (TypeError ("argument of type '" +:+ type_name v +:+ "' is not iterable")),
     t ++ [EvChat "gpt-4o" (extraction_request w transcript) true]).
Proof.
  intros Hchat Hloads Hdf Hit. run_extraction Hchat.
  unfold try_except, loads. rewrite Hloads, bind_ret, bind_lift. simpl.
  rewrite bind_lift. simpl. rewrite Hdf.
  rewrite bool_decide_eq_true_2 by done.
  rewrite bind_lift. simpl. rewrite bind_lift.
  by destruct v; simpl in *.
Qed.

(** X6: when the [date_filter] member of the answer is an object, extraction
    returns, and its [date_filter] holds the [gte] and [lte] members of that
    object and nothing else: every other member is dropped. *)
Theorem extract_keeps_only_gte_and_lte (transcript : list ChatMessage) (t : trace)
    (completion : string) (kvs df : list (string * json)) :
  chat_completions_create w "gpt-4o" (extraction_request w transcript) true = Ok completion →
  json_loads w completion = Some (JObj kvs) →
  assoc "date_filter" kvs = Some (JObj df) →
  ∃ r,
    extract_queries_and_date_filters w (to_dict <$> transcript) t =
      (Ok r, t ++ [EvChat "gpt-4o" (extraction_request w transcript) true]) ∧
    queries r = match assoc "queries" kvs with Some v => v | None => JArr [] end ∧
    error r = None ∧
    date_filter r !! "gte" = assoc "gte" df ∧
    date_filter r !! "lte" = assoc "lte" df ∧
    ∀ k, k ≠ "gte" → k ≠ "lte" → date_filter r !! k = None.
Proof.
  intros Hchat Hloads Hdf. run_extraction Hchat.
  unfold try_except, loads. rewrite Hloads, bind_ret, bind_lift. simpl.
  rewrite bind_lift. simpl. rewrite Hdf.
  rewrite bool_decide_eq_true_2 by done.
  rewrite bind_lift. simpl.
  unfold bind, lift, ret. simpl.
  destruct (assoc "gte" df) as [g|] eqn:Hg, (assoc "lte" df) as [l|] eqn:Hl;
    repeat (first [rewrite bool_decide_eq_true_2 by done
                  |rewrite bool_decide_eq_false_2 by (by intros [??])]);
    simpl; eexists; (split; [reflexivity|]); unfold set_date_filter; simpl.
  all: split; [by destruct (assoc "queries" kvs)|].
  all: split; [done|].
  all: repeat split; intros; by simplify_map_eq.
Qed.

End ExtractionMore.

(** ** Further properties of [retrieve_news] *)

Section RetrievalMore.

Context (w : World).

(** X7: when both bounds parse, the search carries one condition on
    [metadata.date] with both of them, as they are: the two dates are not
    compared with each other. *)
Theorem both_bounds_give_a_range (qu : string) (df : gmap string json) (mk : option Z)
    (t : trace) (g l : string) (dg dl : date) :
  df !! "gte" = Some (JStr g) → strptime_ymd w g = Some dg →
  df !! "lte" = Some (JStr l) → strptime_ymd w l = Some dl →
  (retrieve_news w qu df mk t).2 =
    t ++ [EvSearch qu (default 5 mk)
            (Some (mkFilter [mkCond "metadata.date" (mkRange (Some dg) (Some dl))]))].
Proof.
  intros Hg Hgp Hl Hlp. rewrite retrieve_news_run.
  unfold invalid_print, compile. rewrite Hg, Hl. simpl. rewrite Hgp, Hlp. simpl.
  by destruct (similarity_search _ _ _ _).
Qed.

(** X8: a bound that is present and is not text (a number, [null], a list)
    makes [strptime] raise [TypeError], whose message names [None] for
    [null] and the class of the value otherwise; [except ValueError] does
    not catch it, so [retrieve_news] raises and the store is not searched. *)
Theorem non_text_bound_raises (qu : string) (df : gmap string json) (mk : option Z)
    (t : trace) (v : json) :
  (∀ s, v ≠ JStr s) →
  (df !! "gte" = Some v →
   retrieve_news w qu df mk t =
     (Raise (TypeError ("strptime() argument 1 must be str, not " +:+ arg_type_name v)), t)) ∧
  (bound_crash (df !! "gte") = None → df !! "lte" = Some v →
   (retrieve_news w qu df mk t).1 =
     Raise (TypeError ("strptime() argument 1 must be str, not " +:+ arg_type_name v)) ∧
   issued_queries (retrieve_news w qu df mk t).2 = issued_queries t).
Proof.
  intros Hv. split.
  - intros Hg. rewrite retrieve_news_run, Hg.
    destruct v; try done. by destruct (Hv s).
  - intros Hg Hl. rewrite retrieve_news_run, Hg, Hl.
    destruct v; simpl; try (by rewrite issued_queries_app, issued_queries_invalid_print,
                                       app_nil_r).
    by destruct (Hv s).
Qed.

(** X9: [retrieve_news] reads the keys [gte] and [lte] of the date filter
    and nothing else: two dictionaries that agree on these two keys give the
    same result and the same effects.  In particular a dictionary with other
    keys only behaves as the empty one. *)
Theorem retrieve_news_reads_only_gte_and_lte (qu : string) (df df' : gmap string json)
    (mk : option Z) (t : trace) :
  df !! "gte" = df' !! "gte" → df !! "lte" = df' !! "lte" →
  retrieve_news w qu df mk t = retrieve_news w qu df' mk t.
Proof.
  intros Hg Hl. rewrite !retrieve_news_run.
  unfold invalid_print, compile. by rewrite Hg, Hl.
Qed.

(** X10: the articles come in the order of the documents of the store, one
    for one; the title of an article is the text of its document, and an
    article has the three keys [title], [url], [date] and no other: nothing
    else of the metadata is passed on. *)
Theorem articles_follow_store_order (qu : string) (df : gmap string json)
    (mk : option Z) (t t' : trace) (arts : list (gmap string string)) :
  retrieve_news w qu df mk t = (Ok arts, t') →
  ∃ docs,
    similarity_search w qu (default 5 mk) (compile w df) = Ok docs ∧
    ∀ i, match arts !! i, docs !! i with
         | Some art, Some doc =>
             art !! "title" = Some (page_content doc) ∧
             dom art = {[ "title"; "url"; "date" ]}
         | None, None => True
         | _, _ => False
         end.
Proof.
  intros Hrun. apply retrieve_news_ok_inv in Hrun as (docs & Hdocs & ->).
  exists docs. split; [done|]. intros i. rewrite list_lookup_fmap.
  destruct (docs !! i) as [doc|]; simpl; [|done].
  unfold article_of, article. split; [by rewrite lookup_insert_eq|].
  rewrite !dom_insert_L, dom_singleton_L. set_solver.
Qed.

Lemma digit_char_spec (n : Z) :
  0 ≤ n ≤ 9 → is_digit (digit_char n) = true ∧ digit (digit_char n) = n.
Proof.
  intros Hn.
  destruct n as [|p|p]; [done| |lia].
  do 4 (try (destruct p as [p|p|]; try lia)); done.
Qed.

Lemma dec_digit_char (n : Z) (rest : string) :
  0 ≤ n ≤ 9 → dec_digit w (String (digit_char n) rest) = Some (n, rest).
Proof.
  intros Hn. destruct (digit_char_spec n Hn) as [Hd Hv].
  by rewrite dec_digit_ascii, Hv.
Qed.

Lemma parse_Y_four_digits (y : Z) (rest : string) :
  0 ≤ y ≤ 9999 → parse_Y w (four_digits y rest) = Some (y, rest).
Proof.
  intros Hy. unfold four_digits, two_digits, parse_Y.
  do 4 (rewrite dec_digit_char by (Z.to_euclidean_division_equations; lia);
        cbv beta iota zeta delta [mbind option_bind]).
  do 2 f_equal. Z.to_euclidean_division_equations; lia.
Qed.

Lemma parse_m_two_digits (m : Z) (rest : string) :
  1 ≤ m ≤ 12 → parse_m (two_digits m rest) = Some (m, rest).
Proof.
  intros Hm. destruct m as [|p|p]; [lia| |lia].
  do 4 (try (destruct p as [p|p|]; try lia)); reflexivity.
Qed.

Lemma parse_d_two_digits (d : Z) :
  1 ≤ d ≤ 31 → parse_d w (two_digits d EmptyString) = Some (d, EmptyString).
Proof.
  intros Hd. destruct d as [|p|p]; [lia| |lia].
  do 5 (try (destruct p as [p|p|]; try lia)); reflexivity.
Qed.

Lemma days_in_month_le_31 (y m : Z) : days_in_month y m ≤ 31.
Proof. unfold days_in_month. repeat case_match; lia. Qed.

Lemma strptime_iso_format (d : date) :
  valid_date d = true → strptime_ymd w (iso_format d) = Some d.
Proof.
  intros Hv. pose proof Hv as Hv'. unfold valid_date in Hv'.
  rewrite !andb_true_iff, !Z.leb_le in Hv'.
  destruct Hv' as (((((Hy1 & Hy2) & Hm1) & Hm2) & Hd1) & Hd2).
  pose proof (days_in_month_le_31 (year d) (month d)).
  unfold strptime_ymd, iso_format.
  rewrite parse_Y_four_digits by lia.
  cbv beta iota zeta delta [mbind option_bind expect_dash].
  rewrite parse_m_two_digits by lia.
  cbv beta iota zeta delta [mbind option_bind expect_dash].
  rewrite parse_d_two_digits by lia.
  cbv beta iota zeta delta [mbind option_bind].
  rewrite bool_decide_eq_true_2 by done.
  destruct d as [y m dd]. cbn [year month day andb] in *. by rewrite Hv.
Qed.

(** X11: a date of the calendar written the way [%Y-%m-%d] writes it, with
    the year on four digits and month and day on two, is read back as the
    same date: given as [gte] it is the lower bound of the search. *)
Theorem iso_dates_are_accepted (qu : string) (mk : option Z) (t : trace) (d : date) :
  valid_date d = true →
  datetime_strptime w (JStr (iso_format d)) = Ok d ∧
  (retrieve_news w qu {[ "gte" := JStr (iso_format d) ]} mk t).2 =
    t ++ [EvSearch qu (default 5 mk)
            (Some (mkFilter [mkCond "metadata.date" (mkRange (Some d) None)]))].
Proof.
  intros Hv. pose proof (strptime_iso_format d Hv) as Hparse. split.
  - unfold datetime_strptime. by rewrite Hparse.
  - rewrite retrieve_news_run. unfold invalid_print, compile, parse_bound, bound_crash.
    rewrite lookup_singleton_eq, lookup_singleton_ne by done.
    rewrite Hparse. cbv beta iota zeta. rewrite app_nil_l.
    by destruct (similarity_search _ _ _ _).
Qed.

End RetrievalMore.

(** ** What the computations add to the trace *)

Lemma emits_mono {A} (P Q : event → Prop) (m : M A) :
  (∀ ev, P ev → Q ev) → emits P m → emits Q m.
Proof.
  intros HPQ Hm t. destruct (Hm t) as (l & Hl & HP).
  exists l. split; [done|]. eapply Forall_impl; eauto.
Qed.

Lemma silent_emits {A} (P : event → Prop) (m : M A) : silent m → emits P m.
Proof. intros Hm t. exists []. by rewrite app_nil_r, Hm. Qed.

Lemma emits_emit (P : event → Prop) ev : P ev → emits P (emit ev).
Proof. intros Hev t. exists [ev]. split; [done|]. by apply Forall_singleton. Qed.

Lemma emits_bind {A B} (P : event → Prop) (m : M A) (f : A → M B) :
  emits P m → (∀ a, emits P (f a)) → emits P (bind m f).
Proof.
  intros Hm Hf t. unfold bind. destruct (Hm t) as (l & Hl & HP).
  destruct (m t) as [[a|e] t1]; simpl in Hl; subst t1.
  - destruct (Hf a (t ++ l)) as (l' & Hl' & HP').
    exists (l ++ l'). rewrite Hl', app_assoc. split; [done|]. by apply Forall_app.
  - by exists l.
Qed.

Lemma emits_try {A} (P : event → Prop) (m : M A) handles (h : exn → M A) :
  emits P m → (∀ e, emits P (h e)) → emits P (try_except m handles h).
Proof.
  intros Hm Hh t. unfold try_except. destruct (Hm t) as (l & Hl & HP).
  destruct (m t) as [[a|e] t1]; simpl in Hl; subst t1; [by exists l|].
  destruct (handles e); [|by exists l].
  destruct (Hh e (t ++ l)) as (l' & Hl' & HP').
  exists (l ++ l'). rewrite Hl', app_assoc. split; [done|]. by apply Forall_app.
Qed.

Lemma emits_chat (P : event → Prop) w model ms j :
  P (EvChat model ms j) → emits P (chat w model ms j).
Proof.
  intros HP. unfold chat. apply emits_bind; [by apply emits_emit|].
  intros _. apply silent_emits, silent_lift.
Qed.

Lemma emits_search (P : event → Prop) w qu k f :
  P (EvSearch qu k f) → emits P (search w qu k f).
Proof.
  intros HP. unfold search. apply emits_bind; [by apply emits_emit|].
  intros _. apply silent_emits, silent_lift.
Qed.

(** Decomposes a goal [emits P m] along the structure of [m]; what is left
    are the events themselves. *)
Ltac emitting :=
  repeat first
    [ apply silent_emits; first [apply silent_ret | apply silent_raise | apply silent_lift]
    | apply emits_emit
    | apply emits_chat
    | apply emits_search
    | apply emits_bind; [|intros ?]
    | apply emits_try; [|intros ?]
    | match goal with |- emits _ (if ?b then _ else _) => destruct b end
    | match goal with |- emits _ (match ?o with _ => _ end) => destruct o end ].

Section Effects.

Context (w : World) (P : event → Prop).
Context (Hchat : ∀ model ms j, P (EvChat model ms j)).
Context (Hsearch : ∀ qu k f, P (EvSearch qu k f)).
Context (Hprint : ∀ p, P (EvPrint p)).

Lemma silent_loads s : silent (loads w s).
Proof. unfold loads. destruct (json_loads w s); [apply silent_ret|apply silent_raise]. Qed.

Lemma emits_extract msgs : emits P (extract_queries_and_date_filters w msgs).
Proof.
  unfold extract_queries_and_date_filters.
  apply emits_bind; [apply silent_emits, silent_append_history|]. intros ems.
  apply emits_bind; [by apply emits_chat|]. intros completion.
  apply silent_emits. unfold loads. silence.
Qed.

Lemma emits_retrieve_news qu df mk : emits P (retrieve_news w qu df mk).
Proof. unfold retrieve_news. emitting; done. Qed.

Lemma emits_generate msgs news : emits P (generate_rag_response w msgs news).
Proof.
  unfold generate_rag_response.
  apply emits_bind; [apply silent_emits, silent_lift|]. intros last.
  apply emits_bind; [apply silent_emits, silent_context_loop|]. intros context.
  emitting; done.
Qed.

Lemma emits_get_retrieval_try request : emits P (get_retrieval_try w request).
Proof.
  unfold get_retrieval_try.
  apply emits_bind; [apply emits_extract|]. intros ex.
  apply emits_bind; [apply emits_retrieve_news|]. intros arts.
  emitting.
Qed.

Lemma emits_get_completion_try request : emits P (get_completion_try w request).
Proof.
  unfold get_completion_try.
  apply emits_bind; [apply silent_emits, silent_lift|]. intros last.
  apply emits_bind; [apply emits_extract|]. intros ex.
  apply emits_bind; [apply emits_retrieve_news|]. intros arts.
  apply emits_bind; [apply emits_generate|]. intros text.
  emitting.
Qed.

End Effects.

Lemma logged_app t1 t2 : logged (t1 ++ t2) = logged t1 ++ logged t2.
Proof. apply omap_app. Qed.

Lemma logged_not_log l : Forall not_log l → logged l = [].
Proof.
  induction 1 as [|ev l Hev _ IH]; [done|].
  destruct ev; simpl in *; done.
Qed.

(** ** Further properties of the HTTP layer *)

Section HttpMore.

Context (w : World).

(** X12: when no key is configured ([APP_API_KEY] is not set), every request
    is rejected with 401, with or without a header, whatever its value. *)
Theorem unset_key_rejects_everything (t : trace) :
  getenv_APP_API_KEY w = None →
  (∀ req : Request RetrievalRequest,
     post_api_retrieval w req t = (HttpError 401 "Invalid API Key", t)) ∧
  (∀ req : Request CompletionRequest,
     post_api_completion w req t = (HttpError 401 "Invalid API Key", t)).
Proof.
  intros Hnone. split; intros req; apply route_rejected; by rewrite Hnone.
Qed.

(** X13: a request whose body validates against the request model of its
    endpoint is answered in one of three ways: 200 with the value of the
    handler, 401 with [Invalid API Key], or 500 with the text of an
    exception followed by its stack trace.  No exception leaves a handler
    unwrapped.  (A body that does not validate is answered 422 by the
    framework and is no [Request].) *)
Theorem responses_are_200_401_or_500 (t : trace) :
  (∀ req : Request RetrievalRequest,
     match (post_api_retrieval w req t).1 with
     | Http200 _ => True
     | HttpError status detail =>
         (status = 401 ∧ detail = "Invalid API Key") ∨
         (status = 500 ∧
          ∃ e, detail = str e +:+ nl +:+ "Stack Trace:" +:+ nl +:+ format_exc w e)
     end) ∧
  (∀ req : Request CompletionRequest,
     match (post_api_completion w req t).1 with
     | Http200 _ => True
     | HttpError status detail =>
         (status = 401 ∧ detail = "Invalid API Key") ∨
         (status = 500 ∧
          ∃ e, detail = str e +:+ nl +:+ "Stack Trace:" +:+ nl +:+ format_exc w e)
     end).
Proof.
  split; intros req.
  - unfold post_api_retrieval.
    destruct (decide (Some (get_api_key_header req) = getenv_APP_API_KEY w)) as [Hkey|Hkey].
    2:{ rewrite route_rejected by done. left. by split. }
    rewrite route_accepted by done. unfold get_retrieval, try_except.
    destruct (get_retrieval_try w (body req) t) as [[r|e] t1]; [done|].
    simpl. right. split; [done|]. by exists e.
  - unfold post_api_completion.
    destruct (decide (Some (get_api_key_header req) = getenv_APP_API_KEY w)) as [Hkey|Hkey].
    2:{ rewrite route_rejected by done. left. by split. }
    rewrite route_accepted by done. unfold get_completion, try_except.
    destruct (get_completion_try w (body req) t) as [[r|e] t1]; [done|].
    simpl. right. split; [done|]. by exists e.
Qed.

(** X14: the question/answer log is written on failure only.  A request
    answered 200 or 401 adds no record; a request answered 500 adds exactly
    one, whose question is the text of the request and whose answer is
    [ERROR: ] followed by the detail of the response. *)
Theorem log_is_written_on_failure_only (t : trace) :
  (∀ req : Request RetrievalRequest,
     logged (post_api_retrieval w req t).2 =
       logged t ++
       match (post_api_retrieval w req t).1 with
       | HttpError status detail =>
           if decide (status = 500)
           then [mkLog (now_stamp w) (query (body req)) ("ERROR: " +:+ detail)]
           else []
       | Http200 _ => []
       end) ∧
  (∀ req : Request CompletionRequest,
     logged (post_api_completion w req t).2 =
       logged t ++
       match (post_api_completion w req t).1 with
       | HttpError status detail =>
           if decide (status = 500)
           then [mkLog (now_stamp w) (str_messages w (messages (body req)))
                   ("ERROR: " +:+ detail)]
           else []
       | Http200 _ => []
       end).
Proof.
  assert (∀ model ms j, not_log (EvChat model ms j)) as Hc by done.
  assert (∀ qu k f, not_log (EvSearch qu k f)) as Hs by done.
  assert (∀ p, not_log (EvPrint p)) as Hp by done.
  split; intros req.
  - unfold post_api_retrieval.
    destruct (decide (Some (get_api_key_header req) = getenv_APP_API_KEY w)) as [Hkey|Hkey].
    2:{ rewrite route_rejected by done. simpl. by rewrite app_nil_r. }
    rewrite route_accepted by done. unfold get_retrieval, try_except.
    destruct (emits_get_retrieval_try w not_log Hc Hs Hp (body req) t) as (l & Hl & Hnl).
    destruct (get_retrieval_try w (body req) t) as [[r|e] t1]; simpl in Hl; subst t1.
    + simpl. by rewrite logged_app, (logged_not_log l), app_nil_r.
    + simpl. by rewrite !logged_app, (logged_not_log l), app_nil_r.
  - unfold post_api_completion.
    destruct (decide (Some (get_api_key_header req) = getenv_APP_API_KEY w)) as [Hkey|Hkey].
    2:{ rewrite route_rejected by done. simpl. by rewrite app_nil_r. }
    rewrite route_accepted by done. unfold get_completion, try_except.
    destruct (emits_get_completion_try w not_log Hc Hs Hp (body req) t) as (l & Hl & Hnl).
    destruct (get_completion_try w (body req) t) as [[r|e] t1]; simpl in Hl; subst t1.
    + simpl. by rewrite logged_app, (logged_not_log l), app_nil_r.
    + simpl. by rewrite !logged_app, (logged_not_log l), app_nil_r.
Qed.

End HttpMore.

(** ** How the steps compose in the handlers *)

Section Pipelines.

Context (w : World).

Lemma validate_articles_of_docs (docs : list StoredDoc) :
  validate_articles (article_of <$> docs) = Ok (news_of <$> docs).
Proof.
  induction docs as [|doc docs IH]; [done|].
  rewrite !fmap_cons. cbn [validate_articles]. rewrite IH.
  unfold validate_article, article_of, article.
  rewrite lookup_insert_eq.
  rewrite lookup_insert_ne by done. rewrite lookup_insert_eq.
  rewrite !lookup_insert_ne by done. by rewrite lookup_singleton_eq.
Qed.

Lemma to_article_news_of (docs : list StoredDoc) :
  to_article <$> (news_of <$> docs) = article_of <$> docs.
Proof. by rewrite <- list_fmap_compose. Qed.

Lemma retrieve_news_ok qu df mk t docs :
  bound_crash (df !! "gte") = None → bound_crash (df !! "lte") = None →
  similarity_search w qu (default 5 mk) (compile w df) = Ok docs →
  retrieve_news w qu df mk t =
    (Ok (article_of <$> docs),
     t ++ invalid_print w "gte" df ++ invalid_print w "lte" df
       ++ [EvSearch qu (default 5 mk) (compile w df)]).
Proof.
  intros Hg Hl Hsearch. by rewrite retrieve_news_run, Hg, Hl; simpl; rewrite Hsearch.
Qed.

Lemma generate_rag_response_run msgs (docs : list NewsArticle) t last_message :
  last_user_message msgs = Ok last_message →
  generate_rag_response w msgs (to_article <$> docs) t =
    (chat_completions_create w "gpt-4o"
       [mkMsg "system" rag_instructions;
        mkMsg "user" (rag_user_prompt (context_block docs) last_message)] false,
     t ++ [EvChat "gpt-4o"
             [mkMsg "system" rag_instructions;
              mkMsg "user" (rag_user_prompt (context_block docs) last_message)] false]).
Proof.
  intros Hlast. unfold generate_rag_response.
  rewrite bind_lift, Hlast.
  rewrite (bind_ok _ _ _ _ _ (context_loop_spec _ _ _ _)), bind_chat.
  change (EmptyString +:+
            foldr String.append EmptyString (imap (λ j, render_source (0 + j)) docs))
    with (context_block docs).
  by destruct (chat_completions_create _ _ _ _).
Qed.

(** X15: [/api/retrieval] with the right key, when extraction returns
    bounds that are text or absent and the store answers with documents
    whose [url] and [date] are text where they are stored: the store is
    searched once, for the query of the request as it is, for 5 documents,
    under the filter compiled from the extracted dates; the response is 200
    with one article for each document of the store, in order. *)
Theorem retrieval_answers_with_store_documents (req : Request RetrievalRequest)
    (t t1 : trace) (ex : Extracted) (docs : list StoredDoc) :
  Some (get_api_key_header req) = getenv_APP_API_KEY w →
  extract_queries_and_date_filters w [msg_dict "user" (query (body req))] t = (Ok ex, t1) →
  bound_crash (date_filter ex !! "gte") = None →
  bound_crash (date_filter ex !! "lte") = None →
  similarity_search w (query (body req)) 5 (compile w (date_filter ex)) = Ok docs →
  post_api_retrieval w req t =
    (Http200 (mkRetrievalResponse (news_of <$> docs)),
     t1 ++ invalid_print w "gte" (date_filter ex) ++ invalid_print w "lte" (date_filter ex)
        ++ [EvSearch (query (body req)) 5 (compile w (date_filter ex))]).
Proof.
  intros Hkey Hex Hg Hl Hsearch. unfold post_api_retrieval.
  rewrite route_accepted by done. unfold get_retrieval, try_except, get_retrieval_try.
  rewrite (bind_ok _ _ _ _ _ Hex).
  rewrite (bind_ok _ _ _ _ _ (retrieve_news_ok _ _ None _ _ Hg Hl Hsearch)).
  by rewrite bind_lift, validate_articles_of_docs.
Qed.

(** X16: [/api/completion] with the right key, when every step succeeds,
    runs the steps in a fixed order: the extraction call, one search for the
    last user message under the filter compiled from the extracted dates,
    then the generation call, whose prompt holds the documents of the store
    in their order and the last user message.  The response is the text of
    the model as it is. *)
Theorem completion_runs_extraction_search_generation (req : Request CompletionRequest)
    (t t1 : trace) (last_message text : string) (ex : Extracted) (docs : list StoredDoc) :
  let rag_messages :=
    [mkMsg "system" rag_instructions;
     mkMsg "user" (rag_user_prompt (context_block (news_of <$> docs)) last_message)] in
  Some (get_api_key_header req) = getenv_APP_API_KEY w →
  last_user_message (messages (body req)) = Ok last_message →
  extract_queries_and_date_filters w (messages (body req)) t = (Ok ex, t1) →
  bound_crash (date_filter ex !! "gte") = None →
  bound_crash (date_filter ex !! "lte") = None →
  similarity_search w last_message 5 (compile w (date_filter ex)) = Ok docs →
  chat_completions_create w "gpt-4o" rag_messages false = Ok text →
  post_api_completion w req t =
    (Http200 (mkCompletionResponse text),
     t1 ++ invalid_print w "gte" (date_filter ex) ++ invalid_print w "lte" (date_filter ex)
        ++ [EvSearch last_message 5 (compile w (date_filter ex));
            EvChat "gpt-4o" rag_messages false]).
Proof.
  intros rag_messages Hkey Hlast Hex Hg Hl Hsearch Hchat. unfold post_api_completion.
  rewrite route_accepted by done. unfold get_completion, try_except, get_completion_try.
  rewrite bind_lift, Hlast, (bind_ok _ _ _ _ _ Hex).
  rewrite (bind_ok _ _ _ _ _ (retrieve_news_ok _ _ None _ _ Hg Hl Hsearch)).
  rewrite <- to_article_news_of.
  unfold bind at 1.
  rewrite (generate_rag_response_run _ _ _ _ Hlast). fold rag_messages.
  rewrite Hchat. simpl. f_equal. rewrite <- !app_assoc. reflexivity.
Qed.

Lemma first_user_content_outcome (l : list (gmap string string)) :
  (∃ c, first_user_content l = Ok c) ∨
  (∃ key, (key = "role" ∨ key = "content") ∧
          first_user_content l = Raise (KeyError (sq +:+ key +:+ sq))).
Proof.
  induction l as [|m l IH]; [left; by eexists|].
  simpl. unfold getitem.
  destruct (m !! "role") as [r|].
  2:{ right. exists "role". split; [by left|reflexivity]. }
  cbv beta iota. case_bool_decide; [|done].
  destruct (m !! "content") as [c|]; [left; by eexists|].
  right. exists "content". split; [by right|reflexivity].
Qed.

(** X17: [/api/completion] with the right key and a message that lacks the
    [role] or the [content] key: the handler answers 500 with the
    [KeyError] of that key and logs it; neither the model nor the store is
    called. *)
Theorem malformed_message_is_500 (req : Request CompletionRequest) (t : trace) :
  Some (get_api_key_header req) = getenv_APP_API_KEY w →
  Exists ill_formed (messages (body req)) →
  ∃ key, (key = "role" ∨ key = "content") ∧
    let text := (sq +:+ key +:+ sq) +:+ nl +:+ "Stack Trace:" +:+ nl
                  +:+ format_exc w (KeyError (sq +:+ key +:+ sq)) in
    post_api_completion w req t =
      (HttpError 500 text,
       t ++ [EvLog (chat_log w)
               (mkLog (now_stamp w) (str_messages w (messages (body req)))
                  ("ERROR: " +:+ text))]).
Proof.
  intros Hkey Hill. unfold post_api_completion.
  rewrite route_accepted by done. unfold get_completion, try_except, get_completion_try.
  rewrite bind_lift. unfold last_user_message.
  destruct (first_user_content_outcome (reverse (messages (body req))))
    as [[c ->]|(key & Hk & ->)].
  - unfold extract_queries_and_date_filters.
    destruct (append_history_ill (messages (body req))
                [mkMsg "system" (extraction_instructions +:+ "Date now: " +:+ datetime_now w)]
                t Hill) as (key & Hk & Hrun).
    exists key. split; [done|].
    by rewrite (bind_raise _ _ _ _ _ (bind_raise _ _ _ _ _ Hrun)).
  - by exists key.
Qed.

(** X18: whatever the model extracts, any search [/api/retrieval] makes is
    for the query of the request as it is: the extracted queries are not
    used, only the extracted dates are. *)
Theorem retrieval_searches_request_query (request : RetrievalRequest) (t : trace) :
  ∃ qs,
    issued_queries (get_retrieval_try w request t).2 = issued_queries t ++ qs ∧
    (qs = [] ∨ qs = [query request]).
Proof.
  unfold get_retrieval_try. unfold bind at 1.
  pose proof (extract_issues_no_query w [msg_dict "user" (query request)] t) as Hex.
  destruct (extract_queries_and_date_filters _ _ _) as [[ex|e] t1]; simpl in Hex.
  2:{ exists []. rewrite app_nil_r. by split; [|left]. }
  unfold bind at 1.
  pose proof (retrieve_news_issues_query w (query request) (date_filter ex) None t1) as Hre.
  destruct (retrieve_news _ _ _ _ _) as [[arts|e] t2]; simpl in Hre.
  - rewrite bind_lift.
    assert (issued_queries t2 = issued_queries
              (match validate_articles arts with
               | Ok a => ret (mkRetrievalResponse a) t2
               | Raise e => (Raise e, t2)
               end).2) as <- by (by destruct (validate_articles arts)).
    destruct Hre as [-> | ->]; rewrite Hex.
    + exists []. rewrite app_nil_r. by split; [|left].
    + exists [query request]. by split; [|right].
  - simpl. destruct Hre as [-> | ->]; rewrite Hex.
    + exists []. rewrite app_nil_r. by split; [|left].
    + exists [query request]. by split; [|right].
Qed.

End Pipelines.

(** ** Further properties of [generate_rag_response] and [respond] *)

Section GenerationMore.

Context (w : World).

Lemma first_user_content_skip (l : list ChatMessage) (rest : list (gmap string string)) :
  Forall (λ x, role x ≠ "user") l →
  first_user_content ((to_dict <$> l) ++ rest) = first_user_content rest.
Proof.
  induction 1 as [|x l Hx _ IH]; [done|].
  rewrite fmap_cons. simpl. unfold to_dict at 1.
  rewrite getitem_role. by rewrite bool_decide_eq_false_2.
Qed.

(** X19: the last user message, as both [/api/completion] and
    [generate_rag_response] take it, is the content of the latest message
    whose role is [user], whatever follows it; when the transcript has no
    message of that role it is the empty string. *)
Theorem last_user_message_is_the_latest (transcript : list ChatMessage) :
  (∀ pre m post,
     transcript = pre ++ m :: post → role m = "user" →
     Forall (λ x, role x ≠ "user") post →
     last_user_message (to_dict <$> transcript) = Ok (content m)) ∧
  (Forall (λ x, role x ≠ "user") transcript →
   last_user_message (to_dict <$> transcript) = Ok EmptyString).
Proof.
  split.
  - intros pre m post -> Hm Hpost. unfold last_user_message.
    rewrite <- fmap_reverse, reverse_app, reverse_cons, <- app_assoc, fmap_app.
    rewrite first_user_content_skip by (by apply Forall_reverse).
    simpl. unfold to_dict at 1 2. rewrite getitem_role, getitem_content.
    by rewrite bool_decide_eq_true_2.
  - intros Hnone. unfold last_user_message.
    rewrite <- fmap_reverse, <- (app_nil_r (to_dict <$> reverse transcript)).
    by rewrite first_user_content_skip by (by apply Forall_reverse).
Qed.

Lemma context_loop_ill (news : list (gmap string string)) i context t :
  Exists untitled news →
  ∃ key, (key = "title" ∨ key = "url") ∧
    context_loop i context news t = (Raise (KeyError (sq +:+ key +:+ sq)), t).
Proof.
  revert i context. induction news as [|n news IH]; intros i context Hill.
  { by apply Exists_nil in Hill. }
  simpl. rewrite bind_lift. unfold getitem at 1.
  destruct (n !! "title") as [ti|] eqn:Hti.
  2:{ exists "title". split; [by left|done]. }
  rewrite bind_lift. unfold getitem at 1.
  destruct (n !! "url") as [u|] eqn:Hu.
  2:{ exists "url". split; [by right|done]. }
  apply IH. apply Exists_cons in Hill as [[Hm|Hm]|Hill]; [congruence..|done].
Qed.

(** X20: an article without a [title] or without a [url] makes
    [generate_rag_response] raise [KeyError] for that key while it builds
    the context block: the model is not called. *)
Theorem generate_needs_title_and_url (msgs news : list (gmap string string))
    (t : trace) (last_message : string) :
  last_user_message msgs = Ok last_message →
  Exists untitled news →
  ∃ key, (key = "title" ∨ key = "url") ∧
    generate_rag_response w msgs news t = (Raise (KeyError (sq +:+ key +:+ sq)), t).
Proof.
  intros Hlast Hill. unfold generate_rag_response. rewrite bind_lift, Hlast.
  destruct (context_loop_ill news 0 EmptyString t Hill) as (key & Hkey & Hrun).
  exists key. split; [done|]. by rewrite (bind_raise _ _ _ _ _ Hrun).
Qed.

Lemma respond_transcript (history : list (string * string)) (message : string) :
  foldl (λ messages h, messages ++ [msg_dict "user" h.1; msg_dict "assistant" h.2])
        [] history ++ [msg_dict "user" message] =
  to_dict <$> transcript_of history message.
Proof.
  unfold transcript_of. rewrite fmap_app.
  exact (f_equal (λ x, x ++ [msg_dict "user" message]) (respond_messages history [])).
Qed.

Lemma extract_run_trace (transcript : list ChatMessage) (t : trace) :
  ∃ o, extract_queries_and_date_filters w (to_dict <$> transcript) t =
         (o, t ++ [EvChat "gpt-4o" (extraction_request w transcript) true]).
Proof.
  unfold extract_queries_and_date_filters.
  rewrite (bind_ok _ _ _ _ _ (append_history_ok _ _ _)), bind_chat. simpl app.
  fold (extraction_request w transcript).
  destruct (chat_completions_create _ _ _ _) as [completion|]; [|by eexists].
  match goal with |- context [try_except ?m ?c ?h] =>
    assert (silent (try_except m c h)) as Hs end.
  { unfold loads. silence. }
  eexists. by apply silent_run.
Qed.

(** X21: [respond] sends the chat history to the extraction model as a
    transcript: for each pair of the history a [user] message and then an
    [assistant] message, in the order of the history, and the current
    message last, as a [user] message.  This call is its first effect. *)
Theorem respond_sends_history_in_order (message : string) (history : list (string * string))
    (t : trace) :
  ∃ rest,
    (respond w message history t).2 =
      t ++ EvChat "gpt-4o"
             (mkMsg "system" (extraction_instructions +:+ "Date now: " +:+ datetime_now w)
                :: (h ← history; [mkMsg "user" h.1; mkMsg "assistant" h.2])
                ++ [mkMsg "user" message]) true
        :: rest.
Proof.
  unfold respond. rewrite respond_transcript. unfold bind at 1.
  destruct (extract_run_trace (transcript_of history message) t) as [o ->].
  destruct o as [ex|e]; [|by exists []].
  match goal with |- context [(?k ?t0).2] =>
    assert (emits (λ _, True) k) as Hk end.
  { apply emits_bind; [emitting|]. intros qu.
    apply emits_bind; [by emitting|]. intros _.
    apply emits_bind; [by apply emits_retrieve_news|]. intros arts.
    apply emits_bind; [by emitting|]. intros _.
    apply emits_bind; [by apply emits_generate|]. intros text. emitting. }
  destruct (Hk (t ++ [EvChat "gpt-4o" (extraction_request w (transcript_of history message)) true]))
    as (l & -> & _).
  exists l. by rewrite <- app_assoc.
Qed.

(** X22: [respond] when the answer of the model to the extraction call is
    not valid JSON: the fallback is used, the store is searched for the
    message itself with no date filter, and, the store answering, the model
    is asked for the final text, which is returned as it is. *)
Theorem respond_survives_invalid_json (message : string) (history : list (string * string))
    (t : trace) (completion : string) (docs : list StoredDoc) :
  let rag_messages :=
    [mkMsg "system" rag_instructions;
     mkMsg "user" (rag_user_prompt (context_block (news_of <$> docs)) message)] in
  chat_completions_create w "gpt-4o"
    (extraction_request w (transcript_of history message)) true = Ok completion →
  json_loads w completion = None →
  similarity_search w message 5 None = Ok docs →
  respond w message history t =
    (chat_completions_create w "gpt-4o" rag_messages false,
     t ++ [EvChat "gpt-4o" (extraction_request w (transcript_of history message)) true;
           EvPrint (PDateFilter ∅);
           EvSearch message 5 None;
           EvPrint (PArticles (article_of <$> docs));
           EvChat "gpt-4o" rag_messages false]).
Proof.
  intros rag_messages Hchat Hloads Hsearch. unfold respond.
  rewrite respond_transcript. unfold bind at 1.
  assert (extract_queries_and_date_filters w (to_dict <$> transcript_of history message) t =
          (Ok (mkExtracted (JArr []) ∅ (Some "JSONDecodeError")),
           t ++ [EvChat "gpt-4o" (extraction_request w (transcript_of history message)) true]))
    as ->.
  { run_extraction Hchat. unfold try_except, loads. by rewrite Hloads. }
  simpl queries. simpl date_filter. simpl truthy. cbv beta iota.
  rewrite bind_ret, bind_emit.
  assert (compile w ∅ = None) as Hc by done.
  assert (∀ b, bound_crash ((∅ : gmap string json) !! b) = None) as Hb
    by (intros b; by rewrite lookup_empty).
  rewrite (bind_ok _ _ _ _ _
             (retrieve_news_ok w message ∅ None _ docs (Hb _) (Hb _) Hsearch)).
  rewrite bind_emit. unfold bind at 1.
  rewrite <- to_article_news_of.
  rewrite (generate_rag_response_run w _ _ _ _ (respond_last_user_message history message)).
  fold rag_messages. rewrite to_article_news_of.
  unfold invalid_print. rewrite !lookup_empty. rewrite Hc. simpl.
  rewrite <- !app_assoc. simpl.
  by destruct (chat_completions_create w "gpt-4o" rag_messages false).
Qed.

Lemma str_items_non_str (l : list json) (i : nat) :
  Exists (λ v, ∀ s, v ≠ JStr s) l → ∃ msg, str_items i l = Raise (TypeError msg).
Proof.
  revert i. induction l as [|v l IH]; intros i Hex.
  { by apply Exists_nil in Hex. }
  destruct v as [| | | |s| |]; simpl; try by eexists.
  apply Exists_cons in Hex as [Hv|Hex]; [by destruct (Hv s)|].
  destruct (IH (S i) Hex) as [msg ->]. by eexists.
Qed.

(** X23: when the extracted queries, whatever the extracted date filter,
    are a list that holds an item that is not a string, the join raises
    [TypeError] and [respond] raises with it: the call of the extraction is
    the only effect, nothing is printed and the store is not searched. *)
Theorem respond_needs_string_queries (message : string) (history : list (string * string))
    (t t1 : trace) (extracted : Extracted) (l : list json) :
  extract_queries_and_date_filters w (to_dict <$> transcript_of history message) t =
    (Ok extracted, t1) →
  queries extracted = JArr l →
  Exists (λ v, ∀ s, v ≠ JStr s) l →
  t1 = t ++ [EvChat "gpt-4o" (extraction_request w (transcript_of history message)) true] ∧
  ∃ msg, respond w message history t = (Raise (TypeError msg), t1).
Proof.
  intros Hext Hqs Hex.
  destruct (extract_run_trace (transcript_of history message) t) as [o Ho].
  rewrite Hext in Ho. injection Ho as _ Ht1. split; [done|].
  unfold respond. rewrite respond_transcript. unfold bind at 1. rewrite Hext, Hqs.
  destruct (str_items_non_str l 0 Hex) as [msg Hmsg].
  exists msg. destruct l as [|v l]; [by apply Exists_nil in Hex|].
  simpl truthy. cbv beta iota. rewrite bind_lift. unfold join. by rewrite Hmsg.
Qed.

End GenerationMore.

(** ** The further properties on concrete inputs *)

(** A message without a role. *)
Lemma extract_needs_role_and_content_witness :
  ∃ key, (key = "role" ∨ key = "content") ∧
    extract_queries_and_date_filters w_last_week [{[ "content" := "hello" ]}] [] =
      (Raise (KeyError (sq +:+ key +:+ sq)), []).
Proof.
  apply (extract_needs_role_and_content w_last_week [{[ "content" := "hello" ]}] []).
  apply Exists_cons_hd. left. vm_compute; reflexivity.
Defined.

(** The client of the model raises. *)
Lemma extract_model_failure_propagates_witness :
  extract_queries_and_date_filters w_model_down [msg_dict "user" "hello"] [] =
    (Raise (RemoteError "rate limit exceeded"),
     [EvChat "gpt-4o" (extraction_request w_model_down [mkMsg "user" "hello"]) true]).
Proof.
  apply (extract_model_failure_propagates w_model_down [mkMsg "user" "hello"] []).
  vm_compute; reflexivity.
Defined.

(** The model answers with the empty object. *)
Lemma extract_defaults_for_missing_keys_witness :
  extract_queries_and_date_filters w_empty_object [msg_dict "user" "hello"] [] =
    (Ok (mkExtracted (JArr []) ∅ None),
     [EvChat "gpt-4o" (extraction_request w_empty_object [mkMsg "user" "hello"]) true]).
Proof.
  apply (extract_defaults_for_missing_keys w_empty_object [mkMsg "user" "hello"] [] "{}" []);
    vm_compute; reflexivity.
Defined.

(** The model sets [date_filter] to [null]. *)
Lemma extract_null_date_filter_raises_witness :
  extract_queries_and_date_filters w_null_filter [msg_dict "user" "AI news"] [] =
    (Raise (TypeError "argument of type 'NoneType' is not iterable"),
     [EvChat "gpt-4o" (extraction_request w_null_filter [mkMsg "user" "AI news"]) true]).
Proof.
  apply (extract_null_date_filter_raises w_null_filter [mkMsg "user" "AI news"] []
           reply_null_filter
           [("queries", JArr [JStr "AI news"]); ("date_filter", JNull)] JNull);
    [vm_compute; reflexivity | vm_compute; reflexivity | vm_compute; reflexivity | simpl; tauto].
Defined.

(** The model gives both bounds and a note: the note is dropped. *)
Lemma extract_keeps_only_gte_and_lte_witness :
  let df := [("gte", JStr "2024-01-01"); ("lte", JStr "2024-03-31");
             ("note", JStr "first quarter")] in
  ∃ r,
    extract_queries_and_date_filters w_range [msg_dict "user" "AI news"] [] =
      (Ok r, [EvChat "gpt-4o" (extraction_request w_range [mkMsg "user" "AI news"]) true]) ∧
    queries r = JArr [JStr "AI news"] ∧
    error r = None ∧
    date_filter r !! "gte" = Some (JStr "2024-01-01") ∧
    date_filter r !! "lte" = Some (JStr "2024-03-31") ∧
    ∀ k, k ≠ "gte" → k ≠ "lte" → date_filter r !! k = None.
Proof.
  apply (extract_keeps_only_gte_and_lte w_range [mkMsg "user" "AI news"] [] reply_range
           [("queries", JArr [JStr "AI news"]);
            ("date_filter", JObj [("gte", JStr "2024-01-01"); ("lte", JStr "2024-03-31");
                                  ("note", JStr "first quarter")])]
           [("gte", JStr "2024-01-01"); ("lte", JStr "2024-03-31");
            ("note", JStr "first quarter")]);
    vm_compute; reflexivity.
Defined.

(** The first quarter of 2024 as a range. *)
Lemma both_bounds_give_a_range_witness :
  (retrieve_news w_last_week "AI news"
     {[ "gte" := JStr "2024-01-01"; "lte" := JStr "2024-03-31" ]} None []).2 =
    [EvSearch "AI news" 5
       (Some (mkFilter [mkCond "metadata.date"
                          (mkRange (Some (mkDate 2024 1 1)) (Some (mkDate 2024 3 31)))]))].
Proof.
  apply (both_bounds_give_a_range w_last_week "AI news" _ None []
           "2024-01-01" "2024-03-31"); vm_compute; reflexivity.
Defined.

(** [gte] is [null]. *)
Lemma non_text_bound_raises_witness :
  retrieve_news w_last_week "AI news" {[ "gte" := JNull ]} None [] =
    (Raise (TypeError "strptime() argument 1 must be str, not None"), []).
Proof.
  apply (proj1 (non_text_bound_raises w_last_week "AI news" {[ "gte" := JNull ]} None []
                  JNull ltac:(discriminate))).
  vm_compute; reflexivity.
Defined.

(** A dictionary with a note beside [gte], and the same without the note. *)
Lemma retrieve_news_reads_only_gte_and_lte_witness :
  retrieve_news w_last_week "AI news"
    {[ "gte" := JStr "2024-01-01"; "note" := JStr "first quarter" ]} None [] =
  retrieve_news w_last_week "AI news" {[ "gte" := JStr "2024-01-01" ]} None [].
Proof.
  apply (retrieve_news_reads_only_gte_and_lte w_last_week "AI news");
    vm_compute; reflexivity.
Defined.

(** The two stored documents as articles. *)
Lemma articles_follow_store_order_witness :
  ∃ docs,
    similarity_search w_last_week "AI news" 5 None = Ok docs ∧
    ∀ i, match (article_of <$> stored_docs) !! i, docs !! i with
         | Some art, Some doc =>
             art !! "title" = Some (page_content doc) ∧
             dom art = {[ "title"; "url"; "date" ]}
         | None, None => True
         | _, _ => False
         end.
Proof.
  apply (articles_follow_store_order w_last_week "AI news" ∅ None []
           [EvSearch "AI news" 5 None]).
  vm_compute; reflexivity.
Defined.

(** The leap day of 2024. *)
Lemma iso_dates_are_accepted_witness :
  datetime_strptime w_last_week (JStr "2024-02-29") = Ok (mkDate 2024 2 29) ∧
  (retrieve_news w_last_week "AI news" {[ "gte" := JStr "2024-02-29" ]} None []).2 =
    [EvSearch "AI news" 5
       (Some (mkFilter [mkCond "metadata.date" (mkRange (Some (mkDate 2024 2 29)) None)]))].
Proof.
  apply (iso_dates_are_accepted w_last_week "AI news" None [] (mkDate 2024 2 29)).
  vm_compute; reflexivity.
Defined.

(** No key is configured: a request with a key and one without. *)
Lemma unset_key_rejects_everything_witness :
  post_api_retrieval w_no_key (with_key "s3cret" (mkRetrievalRequest "AI news")) [] =
    (HttpError 401 "Invalid API Key", []) ∧
  post_api_completion w_no_key
      (without_key (mkCompletionRequest [msg_dict "user" "AI news"])) [] =
    (HttpError 401 "Invalid API Key", []).
Proof.
  split.
  - apply (proj1 (unset_key_rejects_everything w_no_key [] eq_refl)).
  - apply (proj2 (unset_key_rejects_everything w_no_key [] eq_refl)).
Defined.

(** A retrieval request for the first quarter: both stored documents come
    back, the second with the default url and date. *)
Lemma retrieval_answers_with_store_documents_witness :
  post_api_retrieval w_range (with_key "s3cret" (mkRetrievalRequest "AI news")) [] =
    (Http200 (mkRetrievalResponse
                [mkNews "AI act passed" "https://news.example/ai-act" "2024-03-01";
                 mkNews "Chip export rules" "#" "Unknown date"]),
     [EvChat "gpt-4o" (extraction_request w_range [mkMsg "user" "AI news"]) true;
      EvSearch "AI news" 5
        (Some (mkFilter [mkCond "metadata.date"
                           (mkRange (Some (mkDate 2024 1 1)) (Some (mkDate 2024 3 31)))]))]).
Proof.
  etrans.
  - apply (retrieval_answers_with_store_documents w_range
             (with_key "s3cret" (mkRetrievalRequest "AI news")) []
             [EvChat "gpt-4o" (extraction_request w_range [mkMsg "user" "AI news"]) true]
             (mkExtracted (JArr [JStr "AI news"])
                {[ "gte" := JStr "2024-01-01"; "lte" := JStr "2024-03-31" ]} None)
             stored_docs); vm_compute; reflexivity.
  - vm_compute; reflexivity.
Defined.

(** A completion request for the first quarter. *)
Lemma completion_runs_extraction_search_generation_witness :
  let context :=
    "Source 1: AI act passed" +:+ nl +:+ "URL: https://news.example/ai-act" +:+ nl +:+ nl
      +:+ "Source 2: Chip export rules" +:+ nl +:+ "URL: #" +:+ nl +:+ nl in
  let rag_messages :=
    [mkMsg "system" rag_instructions;
     mkMsg "user" (rag_user_prompt context "AI news of the first quarter?")] in
  post_api_completion w_range
      (with_key "s3cret"
         (mkCompletionRequest [msg_dict "user" "AI news of the first quarter?"])) [] =
    (Http200 (mkCompletionResponse "Nothing new. [Source 1]"),
     [EvChat "gpt-4o"
        (extraction_request w_range [mkMsg "user" "AI news of the first quarter?"]) true;
      EvSearch "AI news of the first quarter?" 5
        (Some (mkFilter [mkCond "metadata.date"
                           (mkRange (Some (mkDate 2024 1 1)) (Some (mkDate 2024 3 31)))]));
      EvChat "gpt-4o" rag_messages false]).
Proof.
  etrans.
  - apply (completion_runs_extraction_search_generation w_range
             (with_key "s3cret"
                (mkCompletionRequest [msg_dict "user" "AI news of the first quarter?"])) []
             [EvChat "gpt-4o"
                (extraction_request w_range [mkMsg "user" "AI news of the first quarter?"]) true]
             "AI news of the first quarter?" "Nothing new. [Source 1]"
             (mkExtracted (JArr [JStr "AI news"])
                {[ "gte" := JStr "2024-01-01"; "lte" := JStr "2024-03-31" ]} None)
             stored_docs); vm_compute; reflexivity.
  - vm_compute; reflexivity.
Defined.

(** A completion request whose only message has no role. *)
Lemma malformed_message_is_500_witness :
  ∃ key, (key = "role" ∨ key = "content") ∧
    let text := (sq +:+ key +:+ sq) +:+ nl +:+ "Stack Trace:" +:+ nl
                  +:+ format_exc w_last_week (KeyError (sq +:+ key +:+ sq)) in
    post_api_completion w_last_week
        (with_key "s3cret" (mkCompletionRequest [{[ "content" := "hello" ]}])) [] =
      (HttpError 500 text,
       [EvLog (chat_log w_last_week)
          (mkLog (now_stamp w_last_week)
             (str_messages w_last_week [{[ "content" := "hello" ]}])
             ("ERROR: " +:+ text))]).
Proof.
  apply (malformed_message_is_500 w_last_week
           (with_key "s3cret" (mkCompletionRequest [{[ "content" := "hello" ]}])) []).
  - vm_compute; reflexivity.
  - apply Exists_cons_hd. left. vm_compute; reflexivity.
Defined.

(** A transcript that ends with an answer of the assistant. *)
Lemma last_user_message_is_the_latest_witness :
  last_user_message
    (to_dict <$> [mkMsg "user" "AI news?"; mkMsg "assistant" "Which year?";
                  mkMsg "user" "2024"; mkMsg "assistant" "Looking."]) = Ok "2024".
Proof.
  apply (proj1 (last_user_message_is_the_latest _)
           [mkMsg "user" "AI news?"; mkMsg "assistant" "Which year?"]
           (mkMsg "user" "2024") [mkMsg "assistant" "Looking."]); try reflexivity.
  constructor; [discriminate | constructor].
Defined.

(** An article with a url and no title. *)
Lemma generate_needs_title_and_url_witness :
  ∃ key, (key = "title" ∨ key = "url") ∧
    generate_rag_response w_last_week [msg_dict "user" "AI news?"] [{[ "url" := "#" ]}] [] =
      (Raise (KeyError (sq +:+ key +:+ sq)), []).
Proof.
  apply (generate_needs_title_and_url w_last_week [msg_dict "user" "AI news?"]
           [{[ "url" := "#" ]}] [] "AI news?").
  - vm_compute; reflexivity.
  - apply Exists_cons_hd. left. vm_compute; reflexivity.
Defined.

(** The model answers the extraction call in prose: [respond] goes on with
    the message itself. *)
Lemma respond_survives_invalid_json_witness :
  let context :=
    "Source 1: AI act passed" +:+ nl +:+ "URL: https://news.example/ai-act" +:+ nl +:+ nl
      +:+ "Source 2: Chip export rules" +:+ nl +:+ "URL: #" +:+ nl +:+ nl in
  let rag_messages :=
    [mkMsg "system" rag_instructions;
     mkMsg "user" (rag_user_prompt context "AI news?")] in
  respond w_not_json "AI news?" [("hi", "Hello.")] [] =
    (Ok "Nothing new. [Source 1]",
     [EvChat "gpt-4o"
        (extraction_request w_not_json
           [mkMsg "user" "hi"; mkMsg "assistant" "Hello."; mkMsg "user" "AI news?"]) true;
      EvPrint (PDateFilter ∅);
      EvSearch "AI news?" 5 None;
      EvPrint (PArticles (article_of <$> stored_docs));
      EvChat "gpt-4o" rag_messages false]).
Proof.
  etrans.
  - apply (respond_survives_invalid_json w_not_json "AI news?" [("hi", "Hello.")] []
             "Sorry, I cannot help with that." stored_docs); vm_compute; reflexivity.
  - vm_compute; reflexivity.
Defined.

(** The model puts the number 2024 among the queries, next to a date
    filter. *)
Lemma respond_needs_string_queries_witness :
  ∃ msg,
    respond w_number_query "AI news?" [] [] =
      (Raise (TypeError msg),
       [EvChat "gpt-4o" (extraction_request w_number_query [mkMsg "user" "AI news?"]) true]).
Proof.
  apply (respond_needs_string_queries w_number_query "AI news?" [] [] _
           (mkExtracted (JArr [JStr "AI news"; JInt 2024])
                        {[ "gte" := JStr "2024-01-01" ]} None)
           [JStr "AI news"; JInt 2024]);
    [vm_compute; reflexivity | vm_compute; reflexivity |].
  apply Exists_cons_tl, Exists_cons_hd. discriminate.
Defined.

(** The model extracts two queries. *)
Lemma respond_searches_joined_queries_witness :
  issued_queries (respond w_two_queries "What changed this week?" [] []).2 =
    ["AI regulation chip exports"].
Proof.
  apply (respond_searches_joined_queries w_two_queries "What changed this week?" [] []
           reply_two_queries
           [("queries", JArr [JStr "AI regulation"; JStr "chip exports"])]
           ["AI regulation"; "chip exports"]); vm_compute; reflexivity.
Defined.

(** ** From the dates of the model to the filter of the search *)

Section DatesToFilter.

Context (w : World).

Lemma extract_run_object (transcript : list ChatMessage) (t : trace)
    (completion : string) (kvs df : list (string * json)) :
  chat_completions_create w "gpt-4o" (extraction_request w transcript) true = Ok completion →
  json_loads w completion = Some (JObj kvs) →
  assoc "date_filter" kvs = Some (JObj df) →
  ∃ r,
    extract_queries_and_date_filters w (to_dict <$> transcript) t =
      (Ok r, t ++ [EvChat "gpt-4o" (extraction_request w transcript) true]) ∧
    date_filter r !! "gte" = assoc "gte" df ∧
    date_filter r !! "lte" = assoc "lte" df.
Proof.
  intros Hchat Hloads Hdf. run_extraction Hchat.
  unfold try_except, loads. rewrite Hloads, bind_ret, bind_lift. simpl.
  rewrite bind_lift. simpl. rewrite Hdf.
  rewrite bool_decide_eq_true_2 by done.
  rewrite bind_lift. simpl.
  unfold bind, lift, ret. simpl.
  destruct (assoc "gte" df) as [g|] eqn:Hg, (assoc "lte" df) as [l|] eqn:Hl;
    repeat (first [rewrite bool_decide_eq_true_2 by done
                  |rewrite bool_decide_eq_false_2 by (by intros [??])]);
    simpl; eexists; (split; [reflexivity|]); unfold set_date_filter; simpl.
  all: split; by simplify_map_eq.
Qed.

(** X26: [/api/retrieval] with the right key, when the model answers with a
    [date_filter] object whose [gte] and [lte] are text or absent: the one
    search that is made is filtered by exactly the bounds that parse as
    dates, and is not filtered when none does. *)
Theorem retrieval_filters_by_extracted_dates (req : Request RetrievalRequest) (t : trace)
    (completion : string) (kvs df : list (string * json)) :
  Some (get_api_key_header req) = getenv_APP_API_KEY w →
  chat_completions_create w "gpt-4o"
    (extraction_request w [mkMsg "user" (query (body req))]) true = Ok completion →
  json_loads w completion = Some (JObj kvs) →
  assoc "date_filter" kvs = Some (JObj df) →
  bound_crash (assoc "gte" df) = None →
  bound_crash (assoc "lte" df) = None →
  issued_filters (post_api_retrieval w req t).2 =
    issued_filters t ++
    [match parse_bound w (assoc "gte" df), parse_bound w (assoc "lte" df) with
     | None, None => None
     | g, l => Some (mkFilter [mkCond "metadata.date" (mkRange g l)])
     end].
Proof.
  intros Hkey Hchat Hloads Hdf Hg Hl. unfold post_api_retrieval.
  rewrite route_accepted by done. unfold get_retrieval, try_except, get_retrieval_try.
  destruct (extract_run_object [mkMsg "user" (query (body req))] t completion kvs df
              Hchat Hloads Hdf) as (r & Hrun & Hrg & Hrl).
  change [msg_dict "user" (query (body req))]
    with (to_dict <$> [mkMsg "user" (query (body req))]).
  rewrite (bind_ok _ _ _ _ _ Hrun). unfold bind at 1.
  rewrite retrieve_news_run. unfold invalid_print, compile.
  rewrite Hrg, Hrl, Hg, Hl.
  destruct (similarity_search _ _ _ _) as [docs|e]; simpl.
  - rewrite validate_articles_of_docs. simpl.
    rewrite !issued_filters_app. simpl.
    by destruct (assoc "gte" df) as [[]|], (assoc "lte" df) as [[]|];
      simpl; repeat case_match; rewrite ?app_nil_r.
  - rewrite !issued_filters_app. simpl.
    by destruct (assoc "gte" df) as [[]|], (assoc "lte" df) as [[]|];
      simpl; repeat case_match; rewrite ?app_nil_r.
Qed.

End DatesToFilter.

(** The model asks for the news since the first of January. *)
Lemma retrieval_filters_by_extracted_dates_witness :
  issued_filters
    (post_api_retrieval w_range (with_key "s3cret" (mkRetrievalRequest "AI news")) []).2 =
    [Some (mkFilter [mkCond "metadata.date"
                       (mkRange (Some (mkDate 2024 1 1)) (Some (mkDate 2024 3 31)))])].
Proof.
  etrans.
  - apply (retrieval_filters_by_extracted_dates w_range
             (with_key "s3cret" (mkRetrievalRequest "AI news")) [] reply_range
             [("queries", JArr [JStr "AI news"]);
              ("date_filter", JObj [("gte", JStr "2024-01-01"); ("lte", JStr "2024-03-31");
                                    ("note", JStr "first quarter")])]
             [("gte", JStr "2024-01-01"); ("lte", JStr "2024-03-31");
              ("note", JStr "first quarter")]); vm_compute; reflexivity.
  - vm_compute; reflexivity.
Defined.
